(** * KakaoHook: token resolution and message dispatch

    A shallow embedding of [airflow/providers/kakao/hooks/kakao.py].
    The hook is Python code that threads one mutable instance (the
    [cached_property] slot), talks to the network through [requests.post]
    and raises exceptions; it is modelled here in a state-and-exception
    monad over an explicit record of HTTP calls. *)

From stdpp Require Import gmap strings list fin_maps pretty.
From Stdlib Require Import ZArith Lia.

Local Open Scope string_scope.
Local Open Scope list_scope.

(** ** Python values

    The values that travel through [api_params], JSON documents and form
    bodies.  A [dict] inside a value keeps its insertion order, which is the
    order [json.dumps] writes it in. *)

#[local] Set Warnings "-register-all".
Inductive pyval : Type :=
| PNone
| PBool (b : bool)
| PInt (z : Z)
| PStr (s : string)
| PList (l : list pyval)
| PDict (d : list (string * pyval)).

(** Python truth value testing ([if x:], [not x]). *)
Definition truthy (v : pyval) : bool :=
  match v with
  | PNone => false
  | PBool b => b
  | PInt z => negb (z =? 0)%Z
  | PStr s => negb (String.eqb s EmptyString)
  | PList l => match l with [] => false | _ => true end
  | PDict d => match d with [] => false | _ => true end
  end.

(** [type(v).__name__], as it appears in CPython's error messages. *)
Definition type_name (v : pyval) : string :=
  match v with
  | PNone => "NoneType"
  | PBool _ => "bool"
  | PInt _ => "int"
  | PStr _ => "str"
  | PList _ => "list"
  | PDict _ => "dict"
  end.

(** An attribute typed [str | None]. *)
Definition of_opt_str (o : option string) : pyval :=
  match o with
  | Some s => PStr s
  | None => PNone
  end.

(** The string bound by [if x:] when [x : str | None] is truthy. *)
Definition nonempty (o : option string) : option string :=
  match o with
  | Some s => if truthy (PStr s) then Some s else None
  | None => None
  end.

(** The list bound by [if xs:] when [xs : List[str] | None] is truthy. *)
Definition nonempty_list {A : Type} (o : option (list A)) : option (list A) :=
  match o with
  | Some (x :: l) => Some (x :: l)
  | _ => None
  end.

(** Lookup in an insertion-ordered dict. *)
Fixpoint assoc (k : string) (d : list (string * pyval)) : option pyval :=
  match d with
  | [] => None
  | (k', v) :: d' => if String.eqb k k' then Some v else assoc k d'
  end.

(** ** HTTP requests, responses and exceptions *)

Record request : Type := Request {
  req_url : string;
  req_headers : list (string * string);
  req_data : list (string * pyval)
}.

Record response : Type := Response {
  status_code : Z;
  reason : string;
  resp_url : string;
  text : string
}.

Inductive exn : Type :=
| AirflowException (msg : string)
| HTTPError (msg : string) (resp : response)
  (** [requests.exceptions.HTTPError], raised by [raise_for_status] only *)
| TransportError (msg : string)
  (** what [requests.post] itself raises ([ConnectionError], [Timeout], ...):
      a [RequestException] that is not an [HTTPError] *)
| JSONDecodeError (msg : string)
| AttributeError (msg : string)
| TypeError (msg : string)
| LookupFailure (msg : string)
  (** whatever the host's connection lookup raises *).

(** [str(e)], as interpolated by [f"...{e}"]. *)
Definition str_exn (e : exn) : string :=
  match e with
  | AirflowException m => m
  | HTTPError m _ => m
  | TransportError m => m
  | JSONDecodeError m => m
  | AttributeError m => m
  | TypeError m => m
  | LookupFailure m => m
  end.

(** The stored Airflow connection, as far as the hook reads it. *)
Record Connection : Type := {
  login : option string;
  password : option string;
  extra_dejson : gmap string pyval
}.

(** ** The collaborators

    What the hook consumes and does not define: the host's connection
    lookup, the [requests] transport, and the [json] and [str] builtins on
    the parts this development leaves open.  [requests_post] sees the calls
    issued so far, so a server may answer each call differently. *)

Record Env : Type := {
  get_connection : string -> string + Connection;
  requests_post : list request -> request -> string + response;
  json_loads : string -> string + pyval;
  json_encode_str : string -> string;
  py_str_other : pyval -> string
}.

(** ** State and exceptions *)

Inductive log_level : Type := INFO | WARNING | ERROR.

Record State : Type := {
  token_cache : option pyval;
    (** the [token] entry that [cached_property] writes into the instance *)
  calls : list request;
    (** every [requests.post] issued so far, oldest first *)
  logs : list (log_level * string)
}.

Inductive outcome (A : Type) : Type :=
| Return (a : A)
| Raise (e : exn).
Arguments Return {A} a.
Arguments Raise {A} e.

Definition M (A : Type) : Type := State -> outcome A * State.

Global Instance M_ret : MRet M := fun A a st => (Return a, st).
Global Instance M_bind : MBind M := fun A B f m st =>
  match m st with
  | (Return a, st') => f a st'
  | (Raise e, st') => (Raise e, st')
  end.

Definition raise {A : Type} (e : exn) : M A := fun st => (Raise e, st).

Definition lift {A : Type} (o : outcome A) : M A := fun st => (o, st).

(** [try: body except ...: handler].  [handler e = None] when no [except]
    clause matches [e], which then propagates. *)
Definition try_except {A : Type} (body : M A) (handler : exn -> option (M A)) : M A :=
  fun st =>
    match body st with
    | (Return a, st') => (Return a, st')
    | (Raise e, st') =>
        match handler e with
        | Some k => k st'
        | None => (Raise e, st')
        end
    end.

Definition log (lvl : log_level) (msg : string) : M unit :=
  fun st => (Return tt,
             {| token_cache := token_cache st;
                calls := calls st;
                logs := logs st ++ [(lvl, msg)] |}).

Definition set_token_cache (v : pyval) : M unit :=
  fun st => (Return tt,
             {| token_cache := Some v; calls := calls st; logs := logs st |}).

(** ** [requests] and [json] operations *)

(** [response.raise_for_status()]: an [HTTPError] for the 4xx and 5xx
    statuses, nothing for any other status. *)
Definition http_error_msg (r : response) : option string :=
  if ((400 <=? status_code r) && (status_code r <? 500))%Z then
    Some (pretty (status_code r) +:+ " Client Error: " +:+ reason r
            +:+ " for url: " +:+ resp_url r)
  else if ((500 <=? status_code r) && (status_code r <? 600))%Z then
    Some (pretty (status_code r) +:+ " Server Error: " +:+ reason r
            +:+ " for url: " +:+ resp_url r)
  else None.

Definition raise_for_status (r : response) : M unit :=
  match http_error_msg r with
  | Some m => raise (HTTPError m r)
  | None => mret tt
  end.

(** [d.get(k)] and [d.get(k, default)] on a parsed JSON document: an
    [AttributeError] unless the document is an object. *)
Definition py_get (v : pyval) (k : string) (dflt : pyval) : outcome pyval :=
  match v with
  | PDict d => Return (default dflt (assoc k d))
  | _ => Raise (AttributeError
                  ("'" +:+ type_name v +:+ "' object has no attribute 'get'"))
  end.

Section Hook.

Context (E : Env).

(** [str(v)] inside an f-string. *)
Definition py_str (v : pyval) : string :=
  match v with
  | PStr s => s
  | _ => py_str_other E v
  end.

(** [json.dumps(v)] with its default separators. *)
Fixpoint json_dumps (v : pyval) : string :=
  match v with
  | PNone => "null"
  | PBool true => "true"
  | PBool false => "false"
  | PInt z => pretty z
  | PStr s => json_encode_str E s
  | PList l =>
      "[" +:+ (fix items (l : list pyval) : string :=
                 match l with
                 | [] => EmptyString
                 | [x] => json_dumps x
                 | x :: l' => json_dumps x +:+ ", " +:+ items l'
                 end) l +:+ "]"
  | PDict d =>
      "{" +:+ (fix items (d : list (string * pyval)) : string :=
                 match d with
                 | [] => EmptyString
                 | [(k, x)] => json_encode_str E k +:+ ": " +:+ json_dumps x
                 | (k, x) :: d' =>
                     json_encode_str E k +:+ ": " +:+ json_dumps x +:+ ", "
                       +:+ items d'
                 end) d +:+ "}"
  end.

Definition loads (s : string) : outcome pyval :=
  match json_loads E s with
  | inr v => Return v
  | inl m => Raise (JSONDecodeError m)
  end.

(** [response.json()]. *)
Definition response_json (r : response) : M pyval := lift (loads (text r)).

(** [requests.post(url, headers=headers, data=data)]: the call is recorded
    whether or not it comes back with a response. *)
Definition post (url : string) (headers : list (string * string))
    (data : list (string * pyval)) : M response :=
  fun st =>
    let rq := Request url headers data in
    let st' := {| token_cache := token_cache st;
                  calls := calls st ++ [rq];
                  logs := logs st |} in
    match requests_post E (calls st) rq with
    | inr r => (Return r, st')
    | inl m => (Raise (TransportError m), st')
    end.

(** ** Slicing and [range] *)

(** [range(start, stop, step)] for a positive step; [stop] iterations are
    enough, since every iteration moves [start] up by at least one. *)
Fixpoint range_from (fuel start stop step : nat) : list nat :=
  match fuel with
  | O => []
  | S fuel' =>
      if (start <? stop)%nat
      then start :: range_from fuel' (start + step) stop step
      else []
  end.

Definition py_range (start stop step : nat) : list nat :=
  range_from stop start stop step.

(** [l[i:j]] for [0 <= i <= j]; Python clips the slice at the end of [l]. *)
Definition py_slice {A : Type} (l : list A) (i j : nat) : list A :=
  take (j - i) (drop i l).

(** [[receiver_uuids[i : i + chunk_size]
      for i in range(0, total_receivers, chunk_size)]] *)
Definition chunks (receiver_uuids : list string) (chunk_size : nat)
    : list (list string) :=
  let total_receivers := length receiver_uuids in
  (fun i => py_slice receiver_uuids i (i + chunk_size))
    <$> py_range 0 total_receivers chunk_size.

(** [enumerate(l)] *)
Definition enumerate {A : Type} (l : list A) : list (nat * A) :=
  zip (seq 0 (length l)) l.

(** ** The hook *)

Record KakaoHook : Type := {
  _token : option string;
  kakao_conn_id : option string;
  token_url : string;
  send_me_url : string;
  send_friend_url : string
}.

Definition default_conn_name : string := "kakao_default".

(** [KakaoHook.__init__] *)
Definition init (kakao_conn_id : option string) (token : option string)
    : KakaoHook :=
  {| _token := token;
     kakao_conn_id := kakao_conn_id;
     token_url := "https://kauth.kakao.com/oauth/token";
     send_me_url := "https://kapi.kakao.com/v2/api/talk/memo/default/send";
     send_friend_url :=
       "https://kapi.kakao.com/v1/api/talk/friends/message/default/send" |}.

(** The state a freshly constructed instance starts from: nothing cached. *)
Definition fresh : State := {| token_cache := None; calls := []; logs := [] |}.

(** The [try] block of the [token] property (lines 141-158). *)
Definition refresh (self : KakaoHook) (headers : list (string * string))
    (data : list (string * pyval)) : M pyval :=
  log INFO "Refreshing Kakao Access Token...";;
  response ← post (token_url self) headers data;
  raise_for_status response;;
  tokens ← response_json response;
  new_access_token ← lift (py_get tokens "access_token" PNone);
  new_refresh_token ← lift (py_get tokens "refresh_token" PNone);
  if negb (truthy new_access_token) then
    raise (AirflowException "Token Refresh Failed: No access_token in response")
  else
    (if truthy new_refresh_token
     then log WARNING "Refresh Token Rotated."
     else mret tt);;
    mret new_access_token.

(** The body of the [token] property, run when nothing is cached. *)
Definition token_getter (self : KakaoHook) : M pyval :=
  match nonempty (_token self) with
  | Some t => mret (PStr t)
  | None =>
  match nonempty (kakao_conn_id self) with
  | None => raise (AirflowException "No valid Kakao connection supplied.")
  | Some conn_id =>
  match get_connection E conn_id with
  | inl m => raise (LookupFailure m)
  | inr conn =>
      let client_secret := default PNone (extra_dejson conn !! "client_secret") in
      match nonempty (login conn), nonempty (password conn) with
      | Some client_id, Some refresh_token =>
          let headers :=
            [("Content-Type",
              "application/x-www-form-urlencoded;charset=utf-8")] in
          let data : list (string * pyval) :=
            ([("grant_type", PStr "refresh_token");
              ("client_id", PStr client_id);
              ("refresh_token", PStr refresh_token)]
             ++ (if truthy client_secret
                 then [("client_secret", client_secret)]
                 else []))%list in
          try_except (refresh self headers data)
            (fun e => Some (
               log ERROR ("Failed to refresh token: " +:+ str_exn e);;
               raise (AirflowException
                        ("Kakao Token Refresh Error: " +:+ str_exn e))))
      | _, _ =>
          raise (AirflowException
                   "REST API Key (Login) or Refresh Token (Password) is missing in the Connection.")
      end
  end end end.

(** [self.token] under [@cached_property]: the getter runs when the instance
    holds no value yet, and only a value it returns is stored. *)
Definition token (self : KakaoHook) : M pyval :=
  fun st =>
    match token_cache st with
    | Some v => (Return v, st)
    | None => (v ← token_getter self; set_token_cache v;; mret v) st
    end.

(** ** Payload construction (lines 187-206) *)

Definition invalid_message : exn :=
  AirflowException "message_args must contain 'text' or 'template_object'.".

(** [key in api_params]: a [TypeError] when [api_params] is [None] (the
    message is CPython's wording up to 3.13). *)
Definition py_in (key : string) (api_params : option (gmap string pyval))
    : outcome bool :=
  match api_params with
  | Some d => Return (bool_decide (is_Some (d !! key)))
  | None => Raise (TypeError "argument of type 'NoneType' is not iterable")
  end.

(** [api_params.get(key, dflt)] *)
Definition params_get (api_params : option (gmap string pyval)) (key : string)
    (dflt : pyval) : pyval :=
  match api_params with
  | Some d => default dflt (d !! key)
  | None => dflt
  end.

Definition build_payload (api_params : option (gmap string pyval))
    (default_url : string) : outcome pyval :=
  match py_in "template_object" api_params with
  | Raise e => Raise e
  | Return true =>
      let payload := params_get api_params "template_object" PNone in
      match payload with
      | PStr s => loads s
      | _ => Return payload
      end
  | Return false =>
      match py_in "text" api_params with
      | Raise e => Raise e
      | Return true =>
          let text := params_get api_params "text" PNone in
          let web_url := params_get api_params "web_url" (PStr default_url) in
          let mobile_web_url := params_get api_params "mobile_web_url" web_url in
          Return (PDict [("object_type", PStr "text");
                         ("text", text);
                         ("link", PDict [("web_url", web_url);
                                         ("mobile_web_url", mobile_web_url)])])
      | Return false => Raise invalid_message
      end
  end.

(** ** Dispatch (lines 180-259) *)

(** The form body of one friend-send call. *)
Definition friend_data (payload : pyval) (chunk : list string)
    : list (string * pyval) :=
  [("receiver_uuids", PStr (json_dumps (PList (PStr <$> chunk))));
   ("template_object", PStr (json_dumps payload))].

(** The form body of the self-send call. *)
Definition me_data (payload : pyval) : list (string * pyval) :=
  [("template_object", PStr (json_dumps payload))].

(** The [for idx, chunk in enumerate(chunks)] loop, one iteration per
    element, with [results] as the list it appends to. *)
Fixpoint send_batches (self : KakaoHook) (headers : list (string * string))
    (payload : pyval) (n_chunks : nat) (batches : list (nat * list string))
    (results : list pyval) : M (list pyval) :=
  match batches with
  | [] => mret results
  | (idx, chunk) :: rest =>
      log INFO ("Processing batch " +:+ pretty (idx + 1)%nat +:+ "/"
                  +:+ pretty n_chunks +:+ " (Count: "
                  +:+ pretty (length chunk) +:+ ")");;
      let data := friend_data payload chunk in
      response ← post (send_friend_url self) headers data;
      raise_for_status response;;
      result ← response_json response;
      let results := (results ++ [result])%list in
      failed_uuids ← lift (py_get result "failure_info" (PList []));
      (if truthy failed_uuids
       then log WARNING ("Batch " +:+ pretty (idx + 1)%nat
                           +:+ " - Some messages failed to send: "
                           +:+ py_str failed_uuids)
       else mret tt);;
      send_batches self headers payload n_chunks rest results
  end.

(** The headers of every send call. *)
Definition send_headers (current_token : pyval) : list (string * string) :=
  [("Authorization", "Bearer " +:+ py_str current_token);
   ("Content-Type", "application/x-www-form-urlencoded")].

(** The [try] block of [send_message] (lines 211-255). *)
Definition dispatch (self : KakaoHook) (headers : list (string * string))
    (payload : pyval) (receiver_uuids : option (list string))
    (results : list pyval) : M (list pyval) :=
  results ←
    match nonempty_list receiver_uuids with
    | Some receiver_uuids =>
        let chunk_size := 5%nat in
        let total_receivers := length receiver_uuids in
        let chunks := chunks receiver_uuids chunk_size in
        log INFO ("Sending message to " +:+ pretty total_receivers
                    +:+ " friends (Total " +:+ pretty (length chunks)
                    +:+ " batches)...");;
        send_batches self headers payload (length chunks) (enumerate chunks)
          results
    | None =>
        let data := me_data payload in
        response ← post (send_me_url self) headers data;
        raise_for_status response;;
        result ← response_json response;
        mret (results ++ [result])%list
    end;
  log INFO "All requests completed successfully.";;
  mret results.

(** The [except requests.exceptions.HTTPError as e] clause. *)
Definition on_http_error (e : exn) : option (M (list pyval)) :=
  match e with
  | HTTPError _ resp =>
      Some (log ERROR ("HTTP Error: " +:+ text resp);;
            raise (AirflowException ("KakaoTalk Send Error: " +:+ str_exn e)))
  | _ => None
  end.

Definition send_message (self : KakaoHook)
    (receiver_uuids : option (list string))
    (api_params : option (gmap string pyval)) : M (list pyval) :=
  current_token ← token self;
  let default_url := "http://localhost:8080" in
  let headers := send_headers current_token in
  payload ← lift (build_payload api_params default_url);
  let results := [] in
  try_except (dispatch self headers payload receiver_uuids results)
    on_http_error.

End Hook.

(** ** The operator ([operators/kakao.py]) *)

Record KakaoTalkOperator : Type := {
  op_token : option string;
  op_receiver_uuids : option (list string);
  op_kakao_kwargs : gmap string pyval;
  op_text : option string;
  op_kakao_conn_id : string
}.

(** [KakaoTalkOperator.__init__]; [kakao_kwargs or {}] turns an absent
    [kakao_kwargs] into the empty dict. *)
Definition operator_init (kakao_conn_id : option string)
    (token : option string) (text : option string)
    (receiver_uuids : option (list string))
    (kakao_kwargs : option (gmap string pyval)) : outcome KakaoTalkOperator :=
  match kakao_conn_id with
  | None => Raise (AirflowException "No valid Kakao connection id supplied.")
  | Some conn_id =>
      Return {| op_token := token;
                op_receiver_uuids := receiver_uuids;
                op_kakao_kwargs := default ∅ kakao_kwargs;
                op_text := text;
                op_kakao_conn_id := conn_id |}
  end.

(** The operator after [self.kakao_kwargs["text"] = self.text], which
    [execute] runs when [self.text is not None]. *)
Definition with_text (self : KakaoTalkOperator) : KakaoTalkOperator :=
  match op_text self with
  | Some t =>
      {| op_token := op_token self;
         op_receiver_uuids := op_receiver_uuids self;
         op_kakao_kwargs := <["text" := PStr t]> (op_kakao_kwargs self);
         op_text := op_text self;
         op_kakao_conn_id := op_kakao_conn_id self |}
  | None => self
  end.

(** [KakaoTalkOperator.execute]: the operator as the call leaves it, and the
    outcome.  The hook is a new instance, so its [token] slot starts empty
    whatever an earlier hook had stored. *)
Definition execute (E : Env) (self : KakaoTalkOperator) (st : State)
    : KakaoTalkOperator * (outcome unit * State) :=
  let self := with_text self in
  let kakao_hook := init (Some (op_kakao_conn_id self)) (op_token self) in
  let st := {| token_cache := None; calls := calls st; logs := logs st |} in
  match send_message E kakao_hook (op_receiver_uuids self)
          (Some (op_kakao_kwargs self)) st with
  | (Return _, st') => (self, (Return tt, st'))
  | (Raise e, st') => (self, (Raise e, st'))
  end.

(** ** Test doubles

    The collaborators of the repository's unit tests: a stored connection,
    canned response bodies with the documents they parse to, and servers
    that answer by endpoint. *)

Module Mock.

Definition conn : Connection :=
  {| login := Some "id1"; password := Some "refresh1"; extra_dejson := ∅ |}.

Definition lookup (conn_id : string) : string + Connection := inr conn.

Definition loads (s : string) : string + pyval :=
  if String.eqb s "TOKEN" then inr (PDict [("access_token", PStr "tok1")])
  else if String.eqb s "SENT" then inr (PDict [("result_code", PInt 0)])
  else inl "Expecting value: line 1 column 1 (char 0)".

Definition quote : string := String (Ascii.ascii_of_nat 34) EmptyString.

Definition encode_str (s : string) : string := quote +:+ s +:+ quote.

Definition ok (url body : string) : response :=
  {| status_code := 200; reason := "OK"; resp_url := url; text := body |}.

Definition failed (url : string) : response :=
  {| status_code := 500; reason := "Internal Server Error"; resp_url := url;
     text := "down" |}.

Definition is_token_url (rq : request) : bool :=
  String.eqb (req_url rq) "https://kauth.kakao.com/oauth/token".

(** Every call succeeds. *)
Definition up (history : list request) (rq : request) : string + response :=
  inr (ok (req_url rq) (if is_token_url rq then "TOKEN" else "SENT")).

(** Every call is answered with status 500. *)
Definition down (history : list request) (rq : request) : string + response :=
  inr (failed (req_url rq)).

(** The token endpoint succeeds, a send call never reaches the server. *)
Definition unreachable (history : list request) (rq : request)
    : string + response :=
  if is_token_url rq then inr (ok (req_url rq) "TOKEN")
  else inl "Connection refused".

(** The second call is answered with status 500, every other one succeeds. *)
Definition flaky (history : list request) (rq : request) : string + response :=
  if (length history =? 1)%nat then inr (failed (req_url rq))
  else up history rq.

(** Every call is answered with status 304 and a body that parses. *)
Definition not_modified (history : list request) (rq : request)
    : string + response :=
  inr {| status_code := 304; reason := "Not Modified";
         resp_url := req_url rq; text := "SENT" |}.

Definition env (server : list request -> request -> string + response) : Env :=
  {| get_connection := lookup;
     requests_post := server;
     json_loads := loads;
     json_encode_str := encode_str;
     py_str_other := fun _ => "<object>" |}.

End Mock.

(** * Vocabulary of the properties *)

(** How the state moves.

    [grows l st st']: from [st] to [st'] exactly the calls [l] were issued,
    in that order, and the cached token was left alone. *)

Definition grows (l : list request) (st st' : State) : Prop :=
  token_cache st' = token_cache st /\ calls st' = (calls st ++ l)%list.

(** The server's answer to [rq], sent after the calls [hist], is a success
    whose body parses to [v]. *)
Definition answers (E : Env) (hist : list request) (rq : request) (v : pyval)
    : Prop :=
  exists r, requests_post E hist rq = inr r /\
            http_error_msg r = None /\
            json_loads E (text r) = inr v.

(** Each of [reqs], sent in this order after [hist], is answered with a
    success whose body is the JSON object in [docs] at the same position. *)
Fixpoint served (E : Env) (hist : list request) (reqs : list request)
    (docs : list pyval) : Prop :=
  match reqs, docs with
  | [], [] => True
  | rq :: reqs', v :: docs' =>
      answers E hist rq v /\ (exists d, v = PDict d) /\
      served E (hist ++ [rq]) reqs' docs'
  | _, _ => False
  end.

(** How a send call fails at the HTTP level, with the exception that
    [send_message] then ends in. *)
Inductive http_failure (E : Env) (hist : list request) (rq : request)
    : exn -> Prop :=
| bad_status r m :
    requests_post E hist rq = inr r ->
    http_error_msg r = Some m ->
    http_failure E hist rq
      (AirflowException ("KakaoTalk Send Error: " +:+ m))
| no_response m :
    requests_post E hist rq = inl m ->
    http_failure E hist rq (TransportError m).

Definition friend_request (E : Env) (self : KakaoHook) (current_token : pyval)
    (payload : pyval) (chunk : list string) : request :=
  Request (send_friend_url self) (send_headers E current_token)
    (friend_data E payload chunk).

Definition me_request (E : Env) (self : KakaoHook) (current_token : pyval)
    (payload : pyval) : request :=
  Request (send_me_url self) (send_headers E current_token)
    (me_data E payload).

Definition is_send (self : KakaoHook) (rq : request) : Prop :=
  req_url rq = send_me_url self \/ req_url rq = send_friend_url self.

Definition is_airflow (e : exn) : bool :=
  match e with
  | AirflowException _ => true
  | _ => false
  end.

(** What the getter can raise. *)
Inductive token_error : exn -> Prop :=
| no_connection :
    token_error (AirflowException "No valid Kakao connection supplied.")
| lookup_failed m :
    token_error (LookupFailure m)
| missing_credentials :
    token_error
      (AirflowException
         "REST API Key (Login) or Refresh Token (Password) is missing in the Connection.")
| refresh_failed m :
    token_error (AirflowException ("Kakao Token Refresh Error: " +:+ m)).

(** The calls a read of the token may add: none, or one POST to the token
    endpoint, the latter only when nothing is cached and no override is
    set. *)
Definition token_traffic (self : KakaoHook) (st st' : State) : Prop :=
  calls st' = calls st \/
  exists rq, req_url rq = token_url self /\
             calls st' = (calls st ++ [rq])%list /\
             token_cache st = None /\ nonempty (_token self) = None.

(** The calls a dispatch sets out to make, in order. *)
Definition planned (E : Env) (self : KakaoHook) (current_token : pyval)
    (payload : pyval) (uuids : option (list string)) : list request :=
  match nonempty_list uuids with
  | Some l => friend_request E self current_token payload <$> chunks l 5
  | None => [me_request E self current_token payload]
  end.

(** [n] reads of [self.token] in a row, by a caller that goes on after a
    read that raised. *)
Fixpoint reads (E : Env) (self : KakaoHook) (n : nat) (st : State)
    : list (outcome pyval) * State :=
  match n with
  | O => ([], st)
  | S n' =>
      let (r, st1) := token E self st in
      let (rs, st2) := reads E self n' st1 in
      (r :: rs, st2)
  end.

Definition is_raise {A : Type} (o : outcome A) : bool :=
  match o with
  | Raise _ => true
  | Return _ => false
  end.

Definition failures {A : Type} (rs : list (outcome A)) : nat :=
  length (List.filter is_raise rs).

(** The calls on record that went to the token endpoint. *)
Definition token_calls (self : KakaoHook) (st : State) : list request :=
  List.filter (fun rq => String.eqb (req_url rq) (token_url self)) (calls st).

(** A caller that sends one message after another and goes on after a send
    that raised. *)
Fixpoint send_all (E : Env) (self : KakaoHook)
    (jobs : list (option (list string) * option (gmap string pyval)))
    (st : State) : State :=
  match jobs with
  | [] => st
  | (uuids, api_params) :: jobs' =>
      send_all E self jobs' (send_message E self uuids api_params st).2
  end.

(** The requests, recipients and payload of the scenarios below. *)
Definition token_request : request :=
  {| req_url := "https://kauth.kakao.com/oauth/token";
     req_headers :=
       [("Content-Type", "application/x-www-form-urlencoded;charset=utf-8")];
     req_data := [("grant_type", PStr "refresh_token");
                  ("client_id", PStr "id1");
                  ("refresh_token", PStr "refresh1")] |}.

Definition twelve : list string :=
  ["u01"; "u02"; "u03"; "u04"; "u05"; "u06"; "u07"; "u08"; "u09"; "u10";
   "u11"; "u12"].

Definition seven : list string :=
  ["u01"; "u02"; "u03"; "u04"; "u05"; "u06"; "u07"].

Definition hi_payload : pyval :=
  PDict [("object_type", PStr "text");
         ("text", PStr "hi");
         ("link", PDict [("web_url", PStr "http://localhost:8080");
                         ("mobile_web_url", PStr "http://localhost:8080")])].

(** The token-refresh call for the stored connection [conn] (lines 122-139),
    when it holds both a client id and a refresh token. *)
Definition refresh_request (self : KakaoHook) (conn : Connection)
    : option request :=
  match nonempty (login conn), nonempty (password conn) with
  | Some client_id, Some refresh_token =>
      Some
        {| req_url := token_url self;
           req_headers :=
             [("Content-Type",
               "application/x-www-form-urlencoded;charset=utf-8")];
           req_data :=
             [("grant_type", PStr "refresh_token");
              ("client_id", PStr client_id);
              ("refresh_token", PStr refresh_token)]
             ++ match extra_dejson conn !! "client_secret" with
                | Some secret =>
                    if truthy secret then [("client_secret", secret)] else []
                | None => []
                end |}
  | _, _ => None
  end.

(** A hook that has to refresh: no override, a connection id that resolves
    to [conn], and [rq] the refresh call for it. *)
Definition refreshes_with (E : Env) (self : KakaoHook) (conn : Connection)
    (rq : request) : Prop :=
  nonempty (_token self) = None /\
  (exists conn_id, nonempty (kakao_conn_id self) = Some conn_id /\
                   get_connection E conn_id = inr conn) /\
  refresh_request self conn = Some rq.

(** The log entries of a level. *)
Definition entries (lvl : log_level) (st : State) : list string :=
  omap (fun p : log_level * string =>
          match lvl, p.1 with
          | INFO, INFO | WARNING, WARNING | ERROR, ERROR => Some p.2
          | _, _ => None
          end) (logs st).

(** The per-recipient failures a batch response reports. *)
Definition failure_info (doc : pyval) : pyval :=
  match doc with
  | PDict d => default (PList []) (assoc "failure_info" d)
  | _ => PList []
  end.

(** The ways the refresh call [rq], sent after [hist], fails, each with the
    detail that the refresh error carries. *)
Inductive refresh_fails (E : Env) (hist : list request) (rq : request)
    : string -> Prop :=
| rf_transport m :
    requests_post E hist rq = inl m ->
    refresh_fails E hist rq m
| rf_status r m :
    requests_post E hist rq = inr r ->
    http_error_msg r = Some m ->
    refresh_fails E hist rq m
| rf_not_json r m :
    requests_post E hist rq = inr r ->
    http_error_msg r = None ->
    json_loads E (text r) = inl m ->
    refresh_fails E hist rq m
| rf_not_object r v :
    requests_post E hist rq = inr r ->
    http_error_msg r = None ->
    json_loads E (text r) = inr v ->
    (forall d, v <> PDict d) ->
    refresh_fails E hist rq
      ("'" +:+ type_name v +:+ "' object has no attribute 'get'")
| rf_no_access_token r d :
    requests_post E hist rq = inr r ->
    http_error_msg r = None ->
    json_loads E (text r) = inr (PDict d) ->
    truthy (default PNone (assoc "access_token" d)) = false ->
    refresh_fails E hist rq
      "Token Refresh Failed: No access_token in response".

(** Servers with canned bodies: what the token endpoint answers and what
    the send endpoints answer, always with status 200.  ["ROTATED"] parses
    to a token answer that rotates the refresh token, ["ARRAY"] to a JSON
    array, ["PARTIAL"] to a send answer that reports a failed recipient. *)
Module Canned.

Definition loads (s : string) : string + pyval :=
  if String.eqb s "ROTATED"
  then inr (PDict [("access_token", PStr "tok2");
                   ("refresh_token", PStr "refresh2")])
  else if String.eqb s "ARRAY" then inr (PList [])
  else if String.eqb s "PARTIAL"
  then inr (PDict [("failure_info", PList [PStr "u01"])])
  else Mock.loads s.

Definition server (token_body send_body : string) (history : list request)
    (rq : request) : string + response :=
  inr (Mock.ok (req_url rq)
         (if Mock.is_token_url rq then token_body else send_body)).

Definition env (token_body send_body : string) : Env :=
  {| get_connection := Mock.lookup;
     requests_post := server token_body send_body;
     json_loads := loads;
     json_encode_str := Mock.encode_str;
     py_str_other := fun _ => "<object>" |}.

End Canned.

(** What one send call comes to: the parsed body, or the exception that
    the call, the status check, the parser or, for a friend-send, the
    [failure_info] lookup raises. *)
Definition send_outcome (E : Env) (hist : list request) (rq : request)
    (friend : bool) : outcome pyval :=
  match requests_post E hist rq with
  | inl m => Raise (TransportError m)
  | inr r =>
      match http_error_msg r with
      | Some m => Raise (HTTPError m r)
      | None =>
          match json_loads E (text r) with
          | inl m => Raise (JSONDecodeError m)
          | inr v =>
              if friend then
                match py_get v "failure_info" (PList []) with
                | Return _ => Return v
                | Raise e => Raise e
                end
              else Return v
          end
      end
  end.

(** What [send_message] raises for an exception [e] of its [try] block. *)
Definition reraised (e : exn) : exn :=
  match e with
  | HTTPError m _ => AirflowException ("KakaoTalk Send Error: " +:+ m)
  | _ => e
  end.

(** The WARNING entry of the batch at position [idx] whose response is
    [doc], if it reports failures. *)
Definition batch_warning (E : Env) (b : nat * pyval) : option string :=
  if truthy (failure_info b.2)
  then Some ("Batch " +:+ pretty (b.1 + 1)%nat
               +:+ " - Some messages failed to send: "
               +:+ py_str E (failure_info b.2))
  else None.

(** The send calls, spelled out: what goes on the wire for the payload
    [payload] under the token [current_token].  With recipients, one call
    to the friend-send endpoint per chunk of five, whose form holds the
    JSON array of the chunk's recipients as [receiver_uuids] and the JSON
    text of the payload as [template_object]; without, one call to the
    self-send endpoint whose form holds the JSON text of the payload. *)
Definition wire_calls (E : Env) (self : KakaoHook)
    (current_token payload : pyval) (receiver_uuids : option (list string))
    : list request :=
  match receiver_uuids with
  | Some (x :: l) =>
      (fun chunk : list string =>
         {| req_url := send_friend_url self;
            req_headers :=
              [("Authorization", "Bearer " +:+ py_str E current_token);
               ("Content-Type", "application/x-www-form-urlencoded")];
            req_data :=
              [("receiver_uuids",
                PStr (json_dumps E (PList (PStr <$> chunk))));
               ("template_object", PStr (json_dumps E payload))] |})
        <$> chunks (x :: l) 5
  | _ =>
      [{| req_url := send_me_url self;
          req_headers :=
            [("Authorization", "Bearer " +:+ py_str E current_token);
             ("Content-Type", "application/x-www-form-urlencoded")];
          req_data := [("template_object", PStr (json_dumps E payload))] |}]
  end.

(** ** Running the monad by hand *)

Ltac unfold_run H :=
  unfold post, raise_for_status, response_json, lift, raise, try_except,
    set_token_cache, log in H;
  unfold mbind, M_bind, mret, M_ret in H.

Ltac split_run H :=
  repeat (simpl in H;
          match type of H with
          | context [match ?x with _ => _ end] =>
              lazymatch x with
              | context [match _ with _ => _ end] => fail
              | _ => destruct x eqn:?
              end
          end);
  simpl in H.

Ltac grows_done :=
  split; simpl; rewrite ?app_nil_r, <- ?app_assoc; (done || congruence).

Ltac unfold_goal :=
  unfold post, raise_for_status, response_json, lift, raise, try_except,
    set_token_cache, log;
  unfold mbind, M_bind, mret, M_ret; simpl.

(** * Properties *)

Lemma grows_refl st : grows [] st st.
Proof. split; [done | by rewrite app_nil_r]. Qed.

Lemma grows_trans l1 l2 st st1 st2 :
  grows l1 st st1 -> grows l2 st1 st2 -> grows (l1 ++ l2) st st2.
Proof.
  intros [Hc1 Hl1] [Hc2 Hl2]. split; [congruence |].
  by rewrite Hl2, Hl1, app_assoc.
Qed.

Lemma grows_nil_l l st st1 st2 :
  grows [] st st1 -> grows l st1 st2 -> grows l st st2.
Proof. intros H1 H2. apply (grows_trans [] l st st1 st2 H1 H2). Qed.

Lemma grows_nil_r l st st1 st2 :
  grows l st st1 -> grows [] st1 st2 -> grows l st st2.
Proof.
  intros H1 H2. rewrite <- (app_nil_r l). by eapply grows_trans.
Qed.

Lemma bind_run {A B : Type} (m : M A) (f : A -> M B) (st : State) :
  (m ≫= f) st =
  match m st with
  | (Return a, st') => f a st'
  | (Raise e, st') => (Raise e, st')
  end.
Proof. reflexivity. Qed.

Lemma log_run lvl msg st :
  exists st', log lvl msg st = (Return tt, st') /\ grows [] st st'.
Proof. eexists. split; [reflexivity |]. split; simpl; [done | by rewrite app_nil_r]. Qed.

Section Steps.

Context (E : Env).

Lemma post_run url headers data st :
  exists st',
    grows [Request url headers data] st st' /\
    post E url headers data st =
      (match requests_post E (calls st) (Request url headers data) with
       | inr r => Return r
       | inl m => Raise (TransportError m)
       end, st').
Proof.
  eexists. split; [| unfold post; destruct (requests_post E _ _); reflexivity].
  split; reflexivity.
Qed.

Lemma raise_for_status_run r st :
  raise_for_status r st =
    (match http_error_msg r with
     | Some m => Raise (HTTPError m r)
     | None => Return tt
     end, st).
Proof. unfold raise_for_status. by destruct (http_error_msg r). Qed.

End Steps.

(** ** Chunking *)

Section Chunking.

Context {A : Type}.
Implicit Types l : list A.

Lemma range_from_lookup fuel start stop step i :
  (0 < step)%nat -> (stop - start <= fuel)%nat ->
  range_from fuel start stop step !! i =
    if decide (start + i * step < stop)%nat
    then Some (start + i * step)%nat else None.
Proof.
  revert start i. induction fuel as [|fuel IH]; intros start i Hstep Hfuel.
  - simpl. case_decide; [lia | done].
  - simpl. destruct (Nat.ltb_spec start stop) as [Hlt|Hge].
    + destruct i as [|i]; simpl.
      * case_decide; [f_equal; lia | lia].
      * rewrite IH by lia.
        repeat case_decide; try lia; try done. f_equal. lia.
    + case_decide; [nia | done].
Qed.

Lemma range_from_length fuel start stop step :
  (0 < step)%nat -> (stop - start <= fuel)%nat ->
  (stop - start <= length (range_from fuel start stop step) * step)%nat /\
  (start < stop ->
   (length (range_from fuel start stop step) - 1) * step < stop - start)%nat.
Proof.
  revert start. induction fuel as [|fuel IH]; intros start Hstep Hfuel.
  - simpl. lia.
  - simpl. destruct (Nat.ltb_spec start stop) as [Hlt|Hge]; [| simpl; lia].
    destruct (IH (start + step)%nat Hstep) as [IH1 IH2]; [lia |].
    simpl. split; [lia |]. intros _. rewrite Nat.sub_0_r.
    destruct (decide (start + step < stop)%nat) as [Hlt'|Hge'].
    + specialize (IH2 Hlt').
      destruct (range_from fuel (start + step) stop step); simpl in *; lia.
    + destruct fuel; simpl; [lia |].
      destruct (Nat.ltb_spec (start + step) stop); [lia | simpl; lia].
Qed.

Lemma slices_concat l step fuel start :
  (0 < step)%nat -> (length l - start <= fuel)%nat ->
  concat ((fun i => py_slice l i (i + step)) <$>
            range_from fuel start (length l) step) = drop start l.
Proof.
  revert start. induction fuel as [|fuel IH]; intros start Hstep Hfuel.
  - simpl. symmetry. apply drop_ge. lia.
  - simpl. destruct (Nat.ltb_spec start (length l)) as [Hlt|Hge].
    + rewrite fmap_cons. simpl. rewrite IH by lia.
      unfold py_slice. replace (start + step - start)%nat with step by lia.
      rewrite <- (drop_drop l step start). apply take_drop.
    + simpl. symmetry. by apply drop_ge.
Qed.

End Chunking.

Lemma chunks_concat (l : list string) (n : nat) :
  (0 < n)%nat -> concat (chunks l n) = l.
Proof.
  intros Hn. unfold chunks, py_range.
  rewrite (slices_concat l n (length l) 0 Hn) by lia. done.
Qed.

Lemma chunks_lookup (l : list string) (n i : nat) :
  (0 < n)%nat ->
  chunks l n !! i =
    if decide (i * n < length l)%nat
    then Some (take n (drop (i * n) l)) else None.
Proof.
  intros Hn. unfold chunks, py_range.
  rewrite list_lookup_fmap, range_from_lookup by lia. simpl.
  case_decide; [| done]. simpl. unfold py_slice. do 2 f_equal. lia.
Qed.

Lemma chunks_length (l : list string) :
  length (chunks l 5) = ((length l + 4) / 5)%nat.
Proof.
  unfold chunks, py_range. rewrite length_fmap.
  destruct (range_from_length (length l) 0 (length l) 5) as [H1 H2]; [lia.. |].
  destruct (decide (0 < length l)%nat) as [Hpos|Hz].
  - specialize (H2 Hpos).
    set (k := length (range_from (length l) 0 (length l) 5)) in *.
    apply (Nat.div_unique _ _ _ (length l + 4 - 5 * k)); lia.
  - destruct l; [done | simpl in Hz; lia].
Qed.

Lemma chunks_nonempty (l : list string) (n : nat) :
  (0 < n)%nat -> l <> [] -> chunks l n <> [].
Proof.
  intros Hn Hl Hc. pose proof (chunks_lookup l n 0 Hn) as H0.
  rewrite Hc in H0. destruct l as [|x l]; [done |].
  case_decide as Hlt; [done | simpl in Hlt; lia].
Qed.

Lemma enumerate_snd {A : Type} (l : list A) : (enumerate l).*2 = l.
Proof. unfold enumerate. apply snd_zip. by rewrite length_seq. Qed.

(** ** The token property *)

Section Token.

Context (E : Env).

Lemma refresh_grows self headers data st r st' :
  refresh E self headers data st = (r, st') ->
  grows [Request (token_url self) headers data] st st'.
Proof.
  intros H. unfold refresh in H. unfold_run H. split_run H.
  all: inversion H; subst; clear H; grows_done.
Qed.

Lemma refresh_returns self headers data st v st' :
  refresh E self headers data st = (Return v, st') ->
  truthy v = true /\
  exists r d,
    requests_post E (calls st) (Request (token_url self) headers data) = inr r /\
    http_error_msg r = None /\
    json_loads E (text r) = inr (PDict d) /\
    assoc "access_token" d = Some v.
Proof.
  intros H. unfold refresh in H. unfold_run H. split_run H.
  all: inversion H; subst; clear H.
  all: match goal with
       | Hl : loads _ _ = Return ?doc |- _ =>
           unfold loads in Hl; destruct (json_loads E _) eqn:Hj; [done |];
           inversion Hl; subst; clear Hl; destruct doc; try done
       end.
  all: repeat match goal with
         | Hg : py_get _ _ _ = Return _ |- _ => simpl in Hg
         end.
  all: split; [by match goal with Hb : negb _ = false |- _ =>
                      apply negb_false_iff in Hb end |].
  all: do 2 eexists; repeat split; try eassumption.
  all: match goal with
       | Hg : Return (default PNone (assoc "access_token" ?d)) = Return ?v,
         Hb : negb (truthy ?v) = false |- _ =>
           inversion Hg; subst; destruct (assoc "access_token" d); done
       end.
Qed.

Lemma token_error_not_invalid e : token_error e -> e <> invalid_message.
Proof. intros He Heq. inversion He; subst; discriminate. Qed.

Lemma token_getter_override self t st :
  nonempty (_token self) = Some t ->
  token_getter E self st = (Return (PStr t), st).
Proof. intros H. unfold token_getter. by rewrite H. Qed.

Lemma token_getter_no_override self st r st' :
  nonempty (_token self) = None ->
  token_getter E self st = (r, st') ->
  token_cache st' = token_cache st /\
  match r with
  | Return v =>
      exists rq, req_url rq = token_url self /\ calls st' = (calls st ++ [rq])%list
  | Raise e =>
      token_error e /\
      (calls st' = calls st \/
       exists rq, req_url rq = token_url self /\
                  calls st' = (calls st ++ [rq])%list)
  end.
Proof.
  intros Hno H. unfold token_getter in H. rewrite Hno in H.
  destruct (nonempty (kakao_conn_id self)) as [conn_id|];
    [| inversion H; subst; split; [done | split; [constructor | by left]]].
  destruct (get_connection E conn_id) as [m|conn];
    [inversion H; subst; split; [done | split; [constructor | by left]] |].
  destruct (nonempty (login conn)) as [client_id|];
    [| inversion H; subst; split; [done | split; [constructor | by left]]].
  destruct (nonempty (password conn)) as [refresh_token|];
    [| inversion H; subst; split; [done | split; [constructor | by left]]].
  unfold try_except in H.
  match type of H with
  | context [refresh E self ?hd ?dt st] =>
      destruct (refresh E self hd dt st) as [r1 st1] eqn:Href;
      apply refresh_grows in Href; destruct Href as [Hc Hl]
  end.
  destruct r1 as [v|e].
  - inversion H; subst. split; [done |]. eexists. split; [| done]. done.
  - unfold_run H. simpl in H. inversion H; subst; clear H. simpl.
    split; [done |]. split; [constructor |]. right.
    eexists. split; [| done]. done.
Qed.

Lemma token_cached self st v :
  token_cache st = Some v -> token E self st = (Return v, st).
Proof. intros H. unfold token. by rewrite H. Qed.

Lemma token_uncached self st :
  token_cache st = None ->
  token E self st =
    match token_getter E self st with
    | (Return v, st') =>
        (Return v, {| token_cache := Some v; calls := calls st';
                      logs := logs st' |})
    | (Raise e, st') => (Raise e, st')
    end.
Proof.
  intros H. unfold token. rewrite H. unfold mbind, M_bind.
  by destruct (token_getter E self st) as [[v|e] st'].
Qed.

End Token.

(** ** The dispatch loop *)

Section Dispatch.

Context (E : Env) (self : KakaoHook) (tok payload : pyval).

Local Abbreviation headers := (send_headers E tok).
Local Abbreviation req := (fun b : nat * list string =>
                         friend_request E self tok payload b.2).

Lemma send_batches_inv n batches results st r st' :
  send_batches E self headers payload n batches results st = (r, st') ->
  token_cache st' = token_cache st /\
  (exists l, calls st' = (calls st ++ l)%list /\ Forall (is_send self) l) /\
  (forall e, r = Raise e -> is_airflow e = false).
Proof.
  revert results st. induction batches as [|[idx chunk] rest IH];
    intros results st H.
  - inversion H; subst. split; [done |]. split; [| done].
    exists []. by rewrite app_nil_r.
  - simpl in H. unfold_run H. split_run H.
    all: try (apply IH in H; destruct H as (Hc & (l & Hl & HF) & He);
              simpl in Hc, Hl; split; [done |]; split; [| done];
              eexists (_ :: l); rewrite Hl, <- app_assoc; split; [done |];
              constructor; [by right | done]).
    all: inversion H; subst; clear H; simpl.
    all: split; [done |]; split;
           [eexists [_]; split; [done | by repeat constructor; right] |].
    all: intros e' He'; inversion He'; subst; try done.
    all: match goal with
         | Hg : py_get ?v _ _ = Raise _ |- _ => by destruct v; inversion Hg
         | Hl : loads _ _ = Raise _ |- _ =>
             unfold loads in Hl; by destruct (json_loads E _); inversion Hl
         end.
Qed.

(** A batch that is answered well moves the loop on to the next one. *)
Lemma send_batches_next n idx chunk rest results st v :
  answers E (calls st) (req (idx, chunk)) v -> (exists d, v = PDict d) ->
  exists st1,
    grows [req (idx, chunk)] st st1 /\
    send_batches E self headers payload n ((idx, chunk) :: rest) results st =
    send_batches E self headers payload n rest (results ++ [v]) st1.
Proof.
  intros (r & Hr & Hs & Hj) [d ->]. simpl. unfold_goal.
  unfold friend_request in Hr. simpl in Hr. rewrite Hr. simpl.
  rewrite Hs. unfold loads. rewrite Hj. simpl.
  destruct (truthy (default (PList []) (assoc "failure_info" d)));
    eexists; (split; [| reflexivity]); grows_done.
Qed.

Lemma send_batches_prefix n pre rest results st docs :
  served E (calls st) (req <$> pre) docs ->
  exists st1,
    grows (req <$> pre) st st1 /\
    send_batches E self headers payload n (pre ++ rest) results st =
    send_batches E self headers payload n rest (results ++ docs) st1.
Proof.
  revert results st docs. induction pre as [|[idx chunk] pre IH];
    intros results st docs H.
  - destruct docs; [| done]. exists st. rewrite app_nil_r.
    split; [apply grows_refl | done].
  - destruct docs as [|v docs]; [done |]. destruct H as (Ha & Hd & Hs).
    destruct (send_batches_next n idx chunk (pre ++ rest) results st v Ha Hd)
      as (st1 & G1 & Heq).
    destruct G1 as [Hc1 Hl1]. rewrite <- Hl1 in Hs.
    destruct (IH (results ++ [v])%list st1 docs Hs) as (st2 & G2 & Heq2).
    exists st2. split.
    + apply (grows_trans [_] _ st st1 st2); [by split | done].
    + rewrite <- app_comm_cons, Heq, Heq2. by rewrite <- app_assoc.
Qed.

(** A batch that fails ends the loop there. *)
Lemma send_batches_fails n idx chunk rest results st :
  (forall r m,
     requests_post E (calls st) (req (idx, chunk)) = inr r ->
     http_error_msg r = Some m ->
     exists st1,
       grows [req (idx, chunk)] st st1 /\ logs st1 = (logs st ++
         [(INFO, "Processing batch " +:+ pretty (idx + 1)%nat +:+ "/"
                   +:+ pretty n +:+ " (Count: "
                   +:+ pretty (length chunk) +:+ ")")])%list /\
       send_batches E self headers payload n ((idx, chunk) :: rest) results st
       = (Raise (HTTPError m r), st1)) /\
  (forall m,
     requests_post E (calls st) (req (idx, chunk)) = inl m ->
     exists st1,
       grows [req (idx, chunk)] st st1 /\
       send_batches E self headers payload n ((idx, chunk) :: rest) results st
       = (Raise (TransportError m), st1)).
Proof.
  split.
  - intros r m Hr Hm. simpl. unfold_goal.
    unfold friend_request in Hr. simpl in Hr. rewrite Hr. simpl.
    rewrite Hm. eexists. split; [| split; [| reflexivity]]; [grows_done | done].
  - intros m Hr. simpl. unfold_goal.
    unfold friend_request in Hr. simpl in Hr. rewrite Hr.
    eexists. split; [| reflexivity]. grows_done.
Qed.

End Dispatch.

(** ** One call of [send_message], step by step *)

Section SendMessage.

Context (E : Env) (self : KakaoHook).

Lemma token_step st r st' :
  token E self st = (r, st') ->
  token_traffic self st st' /\
  match r with
  | Return v => token_cache st' = Some v
  | Raise e => token_cache st' = None /\ token_error e
  end.
Proof.
  intros H. destruct (token_cache st) as [v|] eqn:Hc.
  - rewrite (token_cached E self st v Hc) in H. inversion H; subst.
    split; [by left | done].
  - rewrite (token_uncached E self st Hc) in H.
    destruct (nonempty (_token self)) as [t|] eqn:Ho.
    + rewrite (token_getter_override E self t st Ho) in H.
      inversion H; subst. split; [by left | done].
    + destruct (token_getter E self st) as [r1 st1] eqn:Hg.
      destruct (token_getter_no_override E self st r1 st1 Ho Hg) as [Hc1 Hr1].
      destruct r1 as [v|e]; inversion H; subst; clear H; simpl.
      * destruct Hr1 as (rq & Hu & Hl). split; [| done].
        right. by exists rq.
      * destruct Hr1 as (He & [Hl | (rq & Hu & Hl)]).
        -- split; [by left | split; [congruence | done]].
        -- split; [right; by exists rq | split; [congruence | done]].
Qed.

Lemma send_message_run uuids api_params st :
  send_message E self uuids api_params st =
  match token E self st with
  | (Raise e, st1) => (Raise e, st1)
  | (Return current_token, st1) =>
      match build_payload E api_params "http://localhost:8080" with
      | Raise e => (Raise e, st1)
      | Return payload =>
          try_except
            (dispatch E self (send_headers E current_token) payload uuids [])
            on_http_error st1
      end
  end.
Proof.
  unfold send_message, mbind, M_bind, lift.
  destruct (token E self st) as [[current_token|e] st1]; [| done].
  by destruct (build_payload E api_params _).
Qed.

(** Self-send: one call, whatever comes back. *)
Lemma dispatch_me tok payload uuids st :
  nonempty_list uuids = None ->
  exists st',
    grows [me_request E self tok payload] st st' /\
    try_except (dispatch E self (send_headers E tok) payload uuids [])
      on_http_error st =
    (match requests_post E (calls st) (me_request E self tok payload) with
     | inl m => Raise (TransportError m)
     | inr r =>
         match http_error_msg r with
         | Some m => Raise (AirflowException ("KakaoTalk Send Error: " +:+ m))
         | None =>
             match json_loads E (text r) with
             | inr v => Return [v]
             | inl m => Raise (JSONDecodeError m)
             end
         end
     end, st').
Proof.
  intros Hn. unfold dispatch. rewrite Hn. unfold_goal.
  unfold me_request.
  destruct (requests_post E (calls st) _) as [m|r]; simpl;
    [eexists; split; [| reflexivity]; grows_done |].
  destruct (http_error_msg r) as [m|]; simpl;
    [eexists; split; [| reflexivity]; grows_done |].
  unfold loads. destruct (json_loads E (text r)) as [m|v]; simpl;
    eexists; (split; [| reflexivity]); grows_done.
Qed.

Lemma enumerate_requests tok payload (cs : list (list string)) :
  (fun b : nat * list string => friend_request E self tok payload b.2)
    <$> enumerate cs
  = friend_request E self tok payload <$> cs.
Proof.
  rewrite <- (enumerate_snd cs) at 2.
  by rewrite <- list_fmap_compose.
Qed.

(** Friend-send: the dispatch is the loop over the enumerated chunks. *)
Lemma dispatch_friends_run headers payload uuids l results st :
  nonempty_list uuids = Some l ->
  exists st0,
    grows [] st st0 /\
    dispatch E self headers payload uuids results st =
    match send_batches E self headers payload (length (chunks l 5))
            (enumerate (chunks l 5)) results st0 with
    | (Return results', st1) =>
        (log INFO "All requests completed successfully.";; mret results') st1
    | (Raise e, st1) => (Raise e, st1)
    end.
Proof.
  intros Hn. unfold dispatch. rewrite Hn.
  eexists (log INFO _ st).2. split; [| reflexivity]. grows_done.
Qed.

(** Friend-send, every batch answered well. *)
Lemma dispatch_friends tok payload uuids l st docs :
  nonempty_list uuids = Some l ->
  served E (calls st) (friend_request E self tok payload <$> chunks l 5) docs ->
  exists st',
    grows (friend_request E self tok payload <$> chunks l 5) st st' /\
    try_except (dispatch E self (send_headers E tok) payload uuids [])
      on_http_error st = (Return docs, st').
Proof.
  intros Hn Hs.
  rewrite <- enumerate_requests in Hs |- *.
  destruct (dispatch_friends_run (send_headers E tok) payload uuids l [] st Hn)
    as (st0 & [Hc0 Hl0] & Hrun).
  unfold try_except. rewrite Hrun. clear Hrun.
  rewrite app_nil_r in Hl0. rewrite <- Hl0 in Hs.
  destruct (send_batches_prefix E self tok payload (length (chunks l 5))
              (enumerate (chunks l 5)) [] [] st0 docs Hs) as (st1 & G1 & Heq).
  rewrite app_nil_r in Heq. rewrite Heq. simpl.
  eexists. split; [| reflexivity].
  destruct G1 as [Hc1 Hl1]. split; simpl; congruence.
Qed.

(** Friend-send, the batch at position [k] fails. *)
Lemma dispatch_friends_fail tok payload uuids l st k rq docs e :
  nonempty_list uuids = Some l ->
  (friend_request E self tok payload <$> chunks l 5) !! k = Some rq ->
  served E (calls st)
    (take k (friend_request E self tok payload <$> chunks l 5)) docs ->
  http_failure E
    (calls st ++ take k (friend_request E self tok payload <$> chunks l 5))
    rq e ->
  exists st',
    grows (take (S k) (friend_request E self tok payload <$> chunks l 5))
      st st' /\
    try_except (dispatch E self (send_headers E tok) payload uuids [])
      on_http_error st = (Raise e, st').
Proof.
  intros Hn Hk Hs Hf.
  destruct (dispatch_friends_run (send_headers E tok) payload uuids l [] st Hn)
    as (st0 & [Hc0 Hl0] & Hrun).
  unfold try_except. rewrite Hrun. clear Hrun.
  rewrite <- enumerate_requests in Hk, Hs, Hf |- *.
  set (batches := enumerate (chunks l 5)) in *.
  rewrite list_lookup_fmap in Hk.
  destruct (batches !! k) as [[idx chunk]|] eqn:Hb; [| done].
  simpl in Hk. inversion Hk; subst rq; clear Hk.
  rewrite <- fmap_take in Hs, Hf |- *.
  rewrite (take_S_r _ _ _ Hb).
  replace (send_batches E self (send_headers E tok) payload
             (length (chunks l 5)) batches [] st0)
    with (send_batches E self (send_headers E tok) payload
            (length (chunks l 5))
            (take k batches ++ (idx, chunk) :: drop (S k) batches) [] st0)
    by (by rewrite (take_drop_middle _ _ _ Hb)).
  rewrite app_nil_r in Hl0.
  rewrite <- Hl0 in Hs, Hf.
  destruct (send_batches_prefix E self tok payload (length (chunks l 5))
              (take k batches) ((idx, chunk) :: drop (S k) batches) [] st0
              docs Hs) as (st1 & [Hc1 Hl1] & Heq).
  rewrite Heq. rewrite <- Hl1 in Hf.
  destruct (send_batches_fails E self tok payload (length (chunks l 5))
              idx chunk (drop (S k) batches) ([] ++ docs) st1) as [Hbad Hno].
  assert (Hg : forall st2 : State,
             grows [friend_request E self tok payload chunk] st1 st2 ->
             grows ((fun b : nat * list string =>
                       friend_request E self tok payload b.2)
                      <$> (take k batches ++ [(idx, chunk)])) st st2).
  { intros st2 [Hc2 Hl2]. rewrite fmap_app. simpl.
    split; [congruence |]. rewrite Hl2, Hl1, Hl0. by rewrite app_assoc. }
  inversion Hf as [r m Hr Hm | m Hr]; subst.
  - destruct (Hbad r m Hr Hm) as (st2 & G2 & _ & Hrun). rewrite Hrun. simpl.
    eexists. split; [| reflexivity].
    specialize (Hg st2 G2). destruct Hg as [Hc Hl]. split; simpl; congruence.
  - destruct (Hno m Hr) as (st2 & G2 & Hrun). rewrite Hrun. simpl.
    eexists. split; [| reflexivity]. by apply Hg.
Qed.

(** Whatever happens, a dispatch only talks to the two send endpoints,
    leaves the cached token alone, and never ends in the error that payload
    validation raises. *)
Lemma dispatch_inv tok payload uuids st r st' :
  try_except (dispatch E self (send_headers E tok) payload uuids [])
    on_http_error st = (r, st') ->
  token_cache st' = token_cache st /\
  (exists l, calls st' = (calls st ++ l)%list /\ Forall (is_send self) l) /\
  (forall e, r = Raise e -> e <> invalid_message).
Proof.
  intros H. destruct (nonempty_list uuids) as [l|] eqn:Hn.
  - destruct (dispatch_friends_run (send_headers E tok) payload uuids l [] st
                Hn) as (st0 & [Hc0 Hl0] & Hrun).
    unfold try_except in H. rewrite Hrun in H. clear Hrun.
    rewrite app_nil_r in Hl0.
    destruct (send_batches E self (send_headers E tok) payload
                (length (chunks l 5)) (enumerate (chunks l 5)) [] st0)
      as [r1 st1] eqn:Hrun.
    apply send_batches_inv in Hrun. destruct Hrun as (Hc1 & (l1 & Hl1 & HF) & He).
    assert (Hcalls : calls st1 = (calls st ++ l1)%list) by congruence.
    destruct r1 as [docs|e].
    + simpl in H. inversion H; subst; clear H. simpl.
      split; [congruence |]. split; [by exists l1 | done].
    + specialize (He e eq_refl). destruct e; try done; simpl in H.
      all: inversion H; subst; clear H; simpl.
      all: split; [congruence |]; split; [by exists l1 |].
      all: intros e' He'; inversion He'; subst; discriminate.
  - destruct (dispatch_me tok payload uuids st Hn) as (st1 & [Hc Hl] & Hrun).
    rewrite Hrun in H. inversion H; subst; clear H.
    split; [done |]. split.
    + eexists. split; [done |]. constructor; [by left | constructor].
    + intros e He. destruct (requests_post E _ _) as [m|r0]; [by inversion He |].
      destruct (http_error_msg r0);
        [inversion He; subst; discriminate |].
      destruct (json_loads E (text r0)); inversion He; subst; discriminate.
Qed.

End SendMessage.

(** * The claims *)

(** C1, as stated, fails: with no override and a working token endpoint,
    [send_message] on parameters that hold neither key ends in the
    validation error only after the token-refresh POST has been issued. *)
Lemma C1_refresh_precedes_validation :
  send_message (Mock.env Mock.up) (init (Some "kakao_default") None)
    None (Some ∅) fresh
  = (Raise (AirflowException
              "message_args must contain 'text' or 'template_object'."),
     {| token_cache := Some (PStr "tok1");
        calls := [token_request];
        logs := [(INFO, "Refreshing Kakao Access Token...")] |}).
Proof. vm_compute. reflexivity. Qed.

(** C1, amended: for parameters that hold neither ['text'] nor
    ['template_object'], [send_message] first reads the token; if that read
    raises, its error is the result; otherwise the result is the validation
    error.  No send call is issued either way: the only call there can be is
    the one token-refresh POST, and only when nothing is cached and no
    override is set. *)
Theorem C1_validation_follows_token (E : Env) (self : KakaoHook)
    (uuids : option (list string)) (d : gmap string pyval) (st : State) :
  d !! "text" = None ->
  d !! "template_object" = None ->
  send_message E self uuids (Some d) st =
    match token E self st with
    | (Return _, st1) =>
        (Raise (AirflowException
                  "message_args must contain 'text' or 'template_object'."),
         st1)
    | (Raise e, st1) => (Raise e, st1)
    end /\
  forall r st',
    send_message E self uuids (Some d) st = (r, st') ->
    (exists e, r = Raise e) /\ token_traffic self st st'.
Proof.
  intros Htext Htpl.
  assert (Hrun : send_message E self uuids (Some d) st =
                 match token E self st with
                 | (Return _, st1) => (Raise invalid_message, st1)
                 | (Raise e, st1) => (Raise e, st1)
                 end).
  { rewrite send_message_run. unfold build_payload, py_in.
    rewrite Htpl, Htext.
    rewrite !bool_decide_eq_false_2 by (intros [? ?]; done).
    by destruct (token E self st) as [[?|?] ?]. }
  split; [exact Hrun |].
  intros r st' H. rewrite Hrun in H.
  destruct (token E self st) as [r1 st1] eqn:Htok.
  apply token_step in Htok. destruct Htok as [Htraffic _].
  destruct r1; inversion H; subst; eauto.
Qed.

Lemma C1_validation_follows_token_witness :
  send_message (Mock.env Mock.up) (init (Some "kakao_default") (Some "tk"))
    None (Some ∅) fresh
  = (Raise (AirflowException
              "message_args must contain 'text' or 'template_object'."),
     {| token_cache := Some (PStr "tk"); calls := []; logs := [] |}).
Proof.
  destruct (C1_validation_follows_token (Mock.env Mock.up)
              (init (Some "kakao_default") (Some "tk")) None ∅ fresh)
    as [Hrun _]; [reflexivity | reflexivity |].
  rewrite Hrun. reflexivity.
Defined.

(** C9: with [api_params] left at [None], [send_message] reads the token
    first and then fails in the membership test with a [TypeError], never
    with the validation error; a token read that raises ends the call
    before that.  In the run shown, the token-refresh POST is already on
    record when the [TypeError] is raised. *)
Theorem C9_none_params_type_error (E : Env) (self : KakaoHook)
    (uuids : option (list string)) (st : State) :
  send_message E self uuids None st =
    match token E self st with
    | (Return _, st1) =>
        (Raise (TypeError "argument of type 'NoneType' is not iterable"), st1)
    | (Raise e, st1) => (Raise e, st1)
    end /\
  send_message (Mock.env Mock.up) (init (Some "kakao_default") None)
    None None fresh
  = (Raise (TypeError "argument of type 'NoneType' is not iterable"),
     {| token_cache := Some (PStr "tok1");
        calls := [token_request];
        logs := [(INFO, "Refreshing Kakao Access Token...")] |}).
Proof.
  split; [| vm_compute; reflexivity].
  rewrite send_message_run. simpl.
  by destruct (token E self st) as [[?|?] ?].
Qed.

(** C5: when ['text'] is a key of [api_params] and ['template_object'] is
    not, the payload is the text object: its [text] is the given value,
    [web_url] is the given one or else the default placeholder, and
    [mobile_web_url] is the given one or else [web_url].  This is the payload
    that [send_message] dispatches once the token is read. *)
Theorem C5_text_payload (E : Env) (self : KakaoHook)
    (uuids : option (list string)) (d : gmap string pyval) (t : pyval)
    (st : State) :
  d !! "text" = Some t ->
  d !! "template_object" = None ->
  let w := default (PStr "http://localhost:8080") (d !! "web_url") in
  let m := default w (d !! "mobile_web_url") in
  let payload :=
    PDict [("object_type", PStr "text");
           ("text", t);
           ("link", PDict [("web_url", w); ("mobile_web_url", m)])] in
  build_payload E (Some d) "http://localhost:8080" = Return payload /\
  forall tok st1,
    token E self st = (Return tok, st1) ->
    send_message E self uuids (Some d) st =
    try_except (dispatch E self (send_headers E tok) payload uuids [])
      on_http_error st1.
Proof.
  intros Htext Htpl w m payload.
  assert (Hb : build_payload E (Some d) "http://localhost:8080"
               = Return payload).
  { unfold build_payload, py_in, params_get. rewrite Htpl, Htext.
    rewrite bool_decide_eq_false_2 by (intros [? ?]; done).
    rewrite bool_decide_eq_true_2 by eauto. done. }
  split; [exact Hb |]. intros tok st1 Htok.
  rewrite send_message_run, Htok, Hb. done.
Qed.

Lemma C5_text_payload_witness :
  build_payload (Mock.env Mock.up) (Some {["text" := PStr "hello"]})
    "http://localhost:8080"
  = Return
      (PDict [("object_type", PStr "text");
              ("text", PStr "hello");
              ("link", PDict [("web_url", PStr "http://localhost:8080");
                              ("mobile_web_url",
                               PStr "http://localhost:8080")])]).
Proof.
  destruct (C5_text_payload (Mock.env Mock.up)
              (init (Some "kakao_default") None) None
              {["text" := PStr "hello"]} (PStr "hello") fresh)
    as [Hb _]; [reflexivity | reflexivity |].
  exact Hb.
Defined.

(** The payload that a ['template_object'] value turns into. *)
Lemma payload_of_template (E : Env) (d : gmap string pyval) (v : pyval) :
  d !! "template_object" = Some v ->
  build_payload E (Some d) "http://localhost:8080" =
    match v with
    | PStr s => loads E s
    | _ => Return v
    end /\
  ((forall s, v <> PStr s) ->
   build_payload E (Some d) "http://localhost:8080" = Return v).
Proof.
  intros Htpl.
  assert (Hb : build_payload E (Some d) "http://localhost:8080" =
               match v with PStr s => loads E s | _ => Return v end).
  { unfold build_payload, py_in, params_get. rewrite Htpl.
    by rewrite bool_decide_eq_true_2 by eauto. }
  split; [exact Hb |]. intros Hstr. rewrite Hb.
  destruct v; try done. by destruct (Hstr s).
Qed.

(** C6: when ['template_object'] is a key of [api_params], its value is the
    payload, whether or not ['text'] is a key too: a string is handed to the
    JSON parser and the parsed document is the payload (a parse error is
    raised as it is), any other value is the payload as given.  This is what
    [send_message] dispatches once the token is read. *)
Theorem C6_template_object_payload (E : Env) (self : KakaoHook)
    (uuids : option (list string)) (d : gmap string pyval) (v : pyval)
    (st : State) :
  d !! "template_object" = Some v ->
  let built :=
    match v with
    | PStr s =>
        match json_loads E s with
        | inr parsed => Return parsed
        | inl m => Raise (JSONDecodeError m)
        end
    | _ => Return v
    end in
  build_payload E (Some d) "http://localhost:8080" = built /\
  forall tok st1,
    token E self st = (Return tok, st1) ->
    send_message E self uuids (Some d) st =
    match built with
    | Return payload =>
        try_except (dispatch E self (send_headers E tok) payload uuids [])
          on_http_error st1
    | Raise e => (Raise e, st1)
    end.
Proof.
  intros Htpl built.
  assert (Hb : build_payload E (Some d) "http://localhost:8080" = built).
  { unfold build_payload, py_in, params_get. rewrite Htpl.
    rewrite bool_decide_eq_true_2 by eauto. simpl.
    subst built. unfold loads. by destruct v. }
  split; [exact Hb |]. intros tok st1 Htok.
  rewrite send_message_run, Htok, Hb. done.
Qed.

Lemma C6_template_object_payload_witness :
  build_payload (Mock.env Mock.up)
    (Some {["template_object" := PStr "SENT"; "text" := PStr "ignored"]})
    "http://localhost:8080"
  = Return (PDict [("result_code", PInt 0)]) /\
  build_payload (Mock.env Mock.up)
    (Some {["template_object" := PDict [("object_type", PStr "feed")];
            "text" := PStr "ignored"]})
    "http://localhost:8080"
  = Return (PDict [("object_type", PStr "feed")]).
Proof.
  split.
  - destruct (C6_template_object_payload (Mock.env Mock.up)
                (init (Some "kakao_default") None) None
                {["template_object" := PStr "SENT"; "text" := PStr "ignored"]}
                (PStr "SENT") fresh) as [Hb _]; [reflexivity |].
    exact Hb.
  - destruct (C6_template_object_payload (Mock.env Mock.up)
                (init (Some "kakao_default") None) None
                {["template_object" := PDict [("object_type", PStr "feed")];
                  "text" := PStr "ignored"]}
                (PDict [("object_type", PStr "feed")]) fresh) as [Hb _];
      [reflexivity |].
    exact Hb.
Defined.

(** The shape of every chunk: a contiguous slice of five, except that the
    last one may hold fewer. *)
Lemma chunks_shape (l : list string) (i : nat) (chunk : list string) :
  chunks l 5 !! i = Some chunk ->
  chunk = take 5 (drop (i * 5) l) /\
  (0 < length chunk <= 5)%nat /\
  (S i < length (chunks l 5) -> length chunk = 5)%nat.
Proof.
  intros Hi. rewrite chunks_lookup in Hi by lia.
  case_decide as Hlt; [| done]. inversion Hi; subst; clear Hi.
  split; [done |]. rewrite length_take, length_drop. split; [lia |].
  intros Hnext. apply lookup_lt_is_Some_2 in Hnext.
  rewrite chunks_lookup in Hnext by lia.
  case_decide; [lia | by destruct Hnext].
Qed.

(** C8: with [receiver_uuids] absent or empty, once the token is read and
    the payload built, [send_message] issues exactly one POST, to the
    self-send endpoint, with the bearer-token [Authorization] header and the
    JSON-encoded payload as [template_object]; when that call is answered
    with a success, the result is the one-element list of the parsed
    response. *)
Theorem C8_self_send (E : Env) (self : KakaoHook)
    (uuids : option (list string)) (api_params : option (gmap string pyval))
    (st : State) (tok : pyval) (st1 : State) (payload : pyval) :
  uuids = None \/ uuids = Some [] ->
  token E self st = (Return tok, st1) ->
  build_payload E api_params "http://localhost:8080" = Return payload ->
  let rq :=
    {| req_url := send_me_url self;
       req_headers :=
         [("Authorization", "Bearer " +:+ py_str E tok);
          ("Content-Type", "application/x-www-form-urlencoded")];
       req_data := [("template_object", PStr (json_dumps E payload))] |} in
  (forall r st',
     send_message E self uuids api_params st = (r, st') ->
     calls st' = calls st1 ++ [rq]) /\
  (forall v,
     answers E (calls st1) rq v ->
     exists st', send_message E self uuids api_params st = (Return [v], st')).
Proof.
  intros Hu Htok Hb rq.
  assert (Hn : nonempty_list uuids = None) by (by destruct Hu; subst).
  destruct (dispatch_me E self tok payload uuids st1 Hn)
    as (st2 & [Hc Hl] & Hrun).
  split.
  - intros r st' H. rewrite send_message_run, Htok, Hb, Hrun in H.
    by inversion H; subst.
  - intros v (r & Hr & Hs & Hj). exists st2.
    rewrite send_message_run, Htok, Hb, Hrun.
    fold (send_headers E tok) (me_data E payload) in rq.
    change (me_request E self tok payload) with rq.
    by rewrite Hr, Hs, Hj.
Qed.

Lemma C8_self_send_witness :
  exists st',
    send_message (Mock.env Mock.up) (init (Some "kakao_default") None)
      None (Some {["text" := PStr "hi"]}) fresh
    = (Return [PDict [("result_code", PInt 0)]], st').
Proof.
  destruct (C8_self_send (Mock.env Mock.up)
              (init (Some "kakao_default") None) None
              (Some {["text" := PStr "hi"]}) fresh (PStr "tok1")
              {| token_cache := Some (PStr "tok1");
                 calls := [token_request];
                 logs := [(INFO, "Refreshing Kakao Access Token...")] |}
              (PDict [("object_type", PStr "text");
                      ("text", PStr "hi");
                      ("link",
                       PDict [("web_url", PStr "http://localhost:8080");
                              ("mobile_web_url",
                               PStr "http://localhost:8080")])]))
    as [_ Hok]; [by left | vm_compute; reflexivity | vm_compute; reflexivity |].
  apply Hok. eexists. repeat split; vm_compute; reflexivity.
Defined.

Example twelve_chunks :
  chunks twelve 5 =
  [["u01"; "u02"; "u03"; "u04"; "u05"];
   ["u06"; "u07"; "u08"; "u09"; "u10"];
   ["u11"; "u12"]].
Proof. reflexivity. Qed.

(** ** Failing sends *)

Lemma http_error_status (r : response) :
  (400 <= status_code r < 600)%Z -> exists m, http_error_msg r = Some m.
Proof.
  intros [Hlo Hhi]. unfold http_error_msg.
  destruct (400 <=? status_code r)%Z eqn:H1; [| lia].
  destruct (status_code r <? 500)%Z eqn:H2; simpl; [eauto |].
  destruct (500 <=? status_code r)%Z eqn:H3; [| lia].
  destruct (status_code r <? 600)%Z eqn:H4; simpl; [eauto | lia].
Qed.

Lemma planned_fail (E : Env) (self : KakaoHook) (tok payload : pyval)
    (uuids : option (list string)) (st : State) (k : nat) (rq : request)
    (docs : list pyval) (e : exn) :
  planned E self tok payload uuids !! k = Some rq ->
  served E (calls st) (take k (planned E self tok payload uuids)) docs ->
  http_failure E (calls st ++ take k (planned E self tok payload uuids)) rq e ->
  exists st',
    calls st' = calls st ++ take (S k) (planned E self tok payload uuids) /\
    try_except (dispatch E self (send_headers E tok) payload uuids [])
      on_http_error st = (Raise e, st').
Proof.
  unfold planned. intros Hk Hs Hf.
  destruct (nonempty_list uuids) as [l|] eqn:Hn.
  - destruct (dispatch_friends_fail E self tok payload uuids l st k rq docs e
                Hn Hk Hs Hf) as (st' & [Hc Hl] & Hrun).
    by exists st'.
  - destruct k as [|k]; [| done]. simpl in Hk. inversion Hk; subst rq.
    simpl in Hf. rewrite app_nil_r in Hf.
    destruct (dispatch_me E self tok payload uuids st Hn)
      as (st' & [Hc Hl] & Hrun).
    exists st'. split; [done |]. rewrite Hrun.
    inversion Hf as [r m Hr Hm | m Hr]; subst.
    + by rewrite Hr, Hm.
    + by rewrite Hr.
Qed.

(** C4, as stated, fails: a send call that fails at transport level ends
    [send_message] in the transport exception itself, not in the hook's
    send error; and a response with a status outside 2xx that is not a 4xx
    or 5xx, here 304, does not fail the dispatch at all. *)
Lemma C4_only_error_statuses_are_wrapped :
  (send_message (Mock.env Mock.unreachable)
     (init (Some "kakao_default") (Some "tk"))
     None (Some {["text" := PStr "hi"]}) fresh).1
  = Raise (TransportError "Connection refused") /\
  (send_message (Mock.env Mock.not_modified)
     (init (Some "kakao_default") (Some "tk"))
     None (Some {["text" := PStr "hi"]}) fresh).1
  = Return [PDict [("result_code", PInt 0)]].
Proof. split; vm_compute; reflexivity. Qed.

(** C4, amended: once the token is read and the payload built, let the
    calls before position [k] of the dispatch (the self-send call, or the
    batches in order) be answered well.  If the call at position [k] is
    answered with a 4xx or 5xx status, [send_message] fails with the
    exception "KakaoTalk Send Error: " followed by the HTTP error's message;
    if that call fails at transport level, the transport exception
    propagates as it is.  Either way the calls on record are exactly the
    first [k + 1] of the dispatch: nothing is sent after the failure and
    nothing sent before it is sent again. *)
Theorem C4_failed_send_stops_dispatch (E : Env) (self : KakaoHook)
    (uuids : option (list string)) (api_params : option (gmap string pyval))
    (st : State) (tok : pyval) (st1 : State) (payload : pyval)
    (k : nat) (rq : request) (docs : list pyval) :
  token E self st = (Return tok, st1) ->
  build_payload E api_params "http://localhost:8080" = Return payload ->
  planned E self tok payload uuids !! k = Some rq ->
  served E (calls st1) (take k (planned E self tok payload uuids)) docs ->
  (forall r,
     requests_post E (calls st1 ++ take k (planned E self tok payload uuids))
       rq = inr r ->
     (400 <= status_code r < 600)%Z ->
     exists m st',
       http_error_msg r = Some m /\
       send_message E self uuids api_params st
       = (Raise (AirflowException ("KakaoTalk Send Error: " +:+ m)), st') /\
       calls st' =
         calls st1 ++ take (S k) (planned E self tok payload uuids)) /\
  (forall m,
     requests_post E (calls st1 ++ take k (planned E self tok payload uuids))
       rq = inl m ->
     exists st',
       send_message E self uuids api_params st
       = (Raise (TransportError m), st') /\
       calls st' =
         calls st1 ++ take (S k) (planned E self tok payload uuids)).
Proof.
  intros Htok Hb Hk Hs. split.
  - intros r Hr Hstatus. destruct (http_error_status r Hstatus) as [m Hm].
    destruct (planned_fail E self tok payload uuids st1 k rq docs
                (AirflowException ("KakaoTalk Send Error: " +:+ m)) Hk Hs)
      as (st' & Hl & Hrun); [by apply (bad_status E _ rq r m) |].
    exists m, st'. by rewrite send_message_run, Htok, Hb, Hrun.
  - intros m Hr.
    destruct (planned_fail E self tok payload uuids st1 k rq docs
                (TransportError m) Hk Hs)
      as (st' & Hl & Hrun); [by apply no_response |].
    exists st'. by rewrite send_message_run, Htok, Hb, Hrun.
Qed.

Lemma C4_failed_send_stops_dispatch_witness :
  exists st',
    send_message (Mock.env Mock.flaky)
      (init (Some "kakao_default") (Some "tk"))
      (Some seven) (Some {["text" := PStr "hi"]}) fresh
    = (Raise (AirflowException
                "KakaoTalk Send Error: 500 Server Error: Internal Server Error for url: https://kapi.kakao.com/v1/api/talk/friends/message/default/send"),
       st') /\
    length (calls st') = 2%nat.
Proof.
  destruct (C4_failed_send_stops_dispatch (Mock.env Mock.flaky)
              (init (Some "kakao_default") (Some "tk"))
              (Some seven) (Some {["text" := PStr "hi"]}) fresh (PStr "tk")
              {| token_cache := Some (PStr "tk"); calls := []; logs := [] |}
              hi_payload 1
              (friend_request (Mock.env Mock.flaky)
                 (init (Some "kakao_default") (Some "tk")) (PStr "tk")
                 hi_payload ["u06"; "u07"])
              [PDict [("result_code", PInt 0)]])
    as [Hbad _].
  - vm_compute. reflexivity.
  - vm_compute. reflexivity.
  - vm_compute. reflexivity.
  - simpl. repeat split; eauto; eexists; repeat split; vm_compute; reflexivity.
  - destruct (Hbad (Mock.failed
                      "https://kapi.kakao.com/v1/api/talk/friends/message/default/send"))
      as (m & st' & Hm & Hrun & Hl);
      [vm_compute; reflexivity | simpl; lia |].
    vm_compute in Hm. inversion Hm; subst m; clear Hm.
    exists st'. split; [exact Hrun |]. rewrite Hl. reflexivity.
Defined.

(** ** Reading the token more than once *)

Lemma reads_cached (E : Env) (self : KakaoHook) (n : nat) (st : State)
    (v : pyval) :
  token_cache st = Some v ->
  reads E self n st = (replicate n (Return v), st).
Proof.
  intros Hc. induction n as [|n IH]; [done |].
  simpl. rewrite (token_cached E self st v Hc), IH. done.
Qed.

Lemma reads_traffic (E : Env) (self : KakaoHook) (n : nat) (st : State) :
  exists l,
    calls (reads E self n st).2 = calls st ++ l /\
    Forall (fun rq => req_url rq = token_url self) l /\
    (length l <= S (failures (reads E self n st).1))%nat.
Proof.
  revert st. induction n as [|n IH]; intros st.
  - exists []. simpl. rewrite app_nil_r. repeat split; [constructor | lia].
  - simpl. destruct (token E self st) as [r st1] eqn:Htok.
    destruct (token_step E self st r st1 Htok) as [Htraffic Hr].
    assert (Hfirst : exists l1, calls st1 = calls st ++ l1 /\
                       Forall (fun rq => req_url rq = token_url self) l1 /\
                       (length l1 <= 1)%nat).
    { destruct Htraffic as [Hl | (rq & Hu & Hl & _)].
      - exists []. rewrite app_nil_r. repeat split; [done | constructor | simpl; lia].
      - exists [rq]. repeat split; [done | by repeat constructor | simpl; lia]. }
    destruct Hfirst as (l1 & Hl1 & HF1 & Hlen1).
    destruct r as [v|e].
    + rewrite (reads_cached E self n st1 v Hr). simpl.
      exists l1. repeat split; [done | done | lia].
    + destruct (IH st1) as (l2 & Hl2 & HF2 & Hlen2).
      destruct (reads E self n st1) as [rs st2].
      unfold failures in *. simpl in *.
      exists (l1 ++ l2). rewrite Hl2, Hl1, app_assoc.
      repeat split; [by apply Forall_app | rewrite length_app; lia].
Qed.

(** C3, as stated, fails: a read that raises stores nothing, so the next
    read runs the getter again.  Against a token endpoint that answers 500,
    two reads of the token issue two token-refresh POSTs. *)
Lemma C3_failed_reads_refresh_again :
  (reads (Mock.env Mock.down) (init (Some "kakao_default") None) 2 fresh).1
  = [Raise (AirflowException
              "Kakao Token Refresh Error: 500 Server Error: Internal Server Error for url: https://kauth.kakao.com/oauth/token");
     Raise (AirflowException
              "Kakao Token Refresh Error: 500 Server Error: Internal Server Error for url: https://kauth.kakao.com/oauth/token")] /\
  token_calls (init (Some "kakao_default") None)
    (reads (Mock.env Mock.down) (init (Some "kakao_default") None) 2 fresh).2
  = [token_request; token_request].
Proof. split; vm_compute; reflexivity. Qed.

(** C3, amended: on a hook without a token override and with nothing
    cached, a read of the token that succeeds issues exactly one POST, to
    the token endpoint, and stores the access token; every later read
    returns the stored value and changes nothing, so no further call is
    made.  A read that raises stores nothing: over any number of reads,
    every call made goes to the token endpoint and there are at most as
    many as one per failed read plus one. *)
Theorem C3_token_memoized (E : Env) (self : KakaoHook) (st : State) :
  nonempty (_token self) = None ->
  token_cache st = None ->
  (forall v st1,
     token E self st = (Return v, st1) ->
     (exists rq, req_url rq = token_url self /\ calls st1 = calls st ++ [rq]) /\
     token_cache st1 = Some v /\
     forall n, reads E self n st1 = (replicate n (Return v), st1)) /\
  (forall n,
     exists l,
       calls (reads E self n st).2 = calls st ++ l /\
       Forall (fun rq => req_url rq = token_url self) l /\
       (length l <= S (failures (reads E self n st).1))%nat).
Proof.
  intros Ho Hc. split; [| intros n; apply reads_traffic].
  intros v st1 Htok. rewrite (token_uncached E self st Hc) in Htok.
  destruct (token_getter E self st) as [r st0] eqn:Hg.
  destruct (token_getter_no_override E self st r st0 Ho Hg) as [_ Hr].
  destruct r as [v0|e]; inversion Htok; subst; clear Htok. simpl.
  split; [exact Hr |]. split; [done |].
  intros n. by apply reads_cached.
Qed.

Lemma C3_token_memoized_witness :
  exists st1,
    token (Mock.env Mock.up) (init (Some "kakao_default") None) fresh
    = (Return (PStr "tok1"), st1) /\
    calls st1 = [token_request] /\
    reads (Mock.env Mock.up) (init (Some "kakao_default") None) 3 st1
    = ([Return (PStr "tok1"); Return (PStr "tok1"); Return (PStr "tok1")],
       st1).
Proof.
  destruct (C3_token_memoized (Mock.env Mock.up)
              (init (Some "kakao_default") None) fresh)
    as [Hfirst _]; [reflexivity | reflexivity |].
  destruct (Hfirst (PStr "tok1")
              {| token_cache := Some (PStr "tok1");
                 calls := [token_request];
                 logs := [(INFO, "Refreshing Kakao Access Token...")] |})
    as (_ & _ & Hreads); [vm_compute; reflexivity |].
  eexists. split; [vm_compute; reflexivity |]. split; [reflexivity |].
  exact (Hreads 3%nat).
Defined.

(** ** A hook with a token override *)

Lemma send_message_override (E : Env) (self : KakaoHook) (t : string)
    (uuids : option (list string)) (api_params : option (gmap string pyval))
    (st : State) :
  nonempty (_token self) = Some t ->
  token_cache st = None \/ token_cache st = Some (PStr t) ->
  token_cache (send_message E self uuids api_params st).2 = Some (PStr t) /\
  exists l,
    calls (send_message E self uuids api_params st).2 = calls st ++ l /\
    Forall (is_send self) l.
Proof.
  intros Ho Hc. rewrite send_message_run.
  assert (Htok : exists st1,
             token E self st = (Return (PStr t), st1) /\
             token_cache st1 = Some (PStr t) /\ calls st1 = calls st).
  { destruct Hc as [Hc | Hc].
    - rewrite (token_uncached E self st Hc),
        (token_getter_override E self t st Ho). eauto.
    - rewrite (token_cached E self st _ Hc). eauto. }
  destruct Htok as (st1 & -> & Hc1 & Hl1).
  destruct (build_payload E api_params _) as [payload|e].
  - destruct (try_except _ _ st1) as [r st'] eqn:Hrun.
    apply dispatch_inv in Hrun. destruct Hrun as (Hc' & (l & Hl & HF) & _).
    simpl. split; [congruence |]. exists l. split; [congruence | done].
  - simpl. split; [done |]. exists []. by rewrite app_nil_r.
Qed.

Lemma filter_sends (self : KakaoHook) (l : list request) :
  send_me_url self <> token_url self ->
  send_friend_url self <> token_url self ->
  Forall (is_send self) l ->
  List.filter (fun rq => String.eqb (req_url rq) (token_url self)) l = [].
Proof.
  intros Hme Hfr. induction 1 as [|rq l Hrq _ IH]; [done |].
  simpl. rewrite IH.
  destruct (String.eqb_spec (req_url rq) (token_url self)) as [Heq|]; [| done].
  destruct Hrq; congruence.
Qed.

(** C7, as stated, fails: an override that is the empty string is falsy, so
    the getter goes on to the stored connection and refreshes. *)
Lemma C7_empty_override_refreshes :
  token (Mock.env Mock.up) (init (Some "kakao_default") (Some EmptyString))
    fresh
  = (Return (PStr "tok1"),
     {| token_cache := Some (PStr "tok1");
        calls := [token_request];
        logs := [(INFO, "Refreshing Kakao Access Token...")] |}).
Proof. vm_compute. reflexivity. Qed.

(** C7, amended: on a hook constructed with a non-empty token override, a
    read of the token returns the override and issues no call, and over any
    sequence of sends no call at all goes to the token endpoint. *)
Theorem C7_override_never_refreshes (E : Env) (conn_id : option string)
    (t : string)
    (jobs : list (option (list string) * option (gmap string pyval)))
    (st : State) :
  t <> EmptyString ->
  token_cache st = None ->
  token E (init conn_id (Some t)) st
  = (Return (PStr t),
     {| token_cache := Some (PStr t); calls := calls st; logs := logs st |}) /\
  token_calls (init conn_id (Some t)) (send_all E (init conn_id (Some t)) jobs st)
  = token_calls (init conn_id (Some t)) st.
Proof.
  intros Ht Hc.
  assert (Ho : nonempty (_token (init conn_id (Some t))) = Some t).
  { simpl. destruct (String.eqb_spec t EmptyString); [done | done]. }
  split.
  - by rewrite (token_uncached E _ st Hc), (token_getter_override E _ t st Ho).
  - assert (Hinv : token_cache st = None \/ token_cache st = Some (PStr t))
      by (by left).
    clear Hc. revert st Hinv.
    induction jobs as [|[uuids api_params] jobs IH]; intros st Hinv; [done |].
    simpl.
    destruct (send_message_override E _ t uuids api_params st Ho Hinv)
      as (Hc' & l & Hl & HF).
    rewrite IH by (by right). unfold token_calls. rewrite Hl.
    rewrite List.filter_app, (filter_sends _ l); [by rewrite app_nil_r | | | done].
    all: simpl; discriminate.
Qed.

Lemma C7_override_never_refreshes_witness :
  token_calls (init (Some "kakao_default") (Some "tk"))
    (send_all (Mock.env Mock.up) (init (Some "kakao_default") (Some "tk"))
       [(None, Some {["text" := PStr "hi"]});
        (Some twelve, Some {["text" := PStr "hi"]});
        (None, None)]
       fresh)
  = [].
Proof.
  destruct (C7_override_never_refreshes (Mock.env Mock.up)
              (Some "kakao_default") "tk"
              [(None, Some {["text" := PStr "hi"]});
               (Some twelve, Some {["text" := PStr "hi"]});
               (None, None)]
              fresh) as [_ Hcalls]; [discriminate | reflexivity |].
  exact Hcalls.
Defined.

(** ** The scenarios of the specification *)

(** Stored credentials, a refresh that yields ["tok1"], a self-send of
    [{"text": "hi"}]: two calls, the refresh and then the self-send bearing
    the refreshed token, and a one-element result. *)
Example scenario_refresh_then_self_send :
  (send_message (Mock.env Mock.up) (init (Some "kakao_default") None)
     None (Some {["text" := PStr "hi"]}) fresh).1
  = Return [PDict [("result_code", PInt 0)]] /\
  calls
    (send_message (Mock.env Mock.up) (init (Some "kakao_default") None)
       None (Some {["text" := PStr "hi"]}) fresh).2
  = [token_request;
     me_request (Mock.env Mock.up) (init (Some "kakao_default") None)
       (PStr "tok1") hi_payload].
Proof. split; vm_compute; reflexivity. Qed.

(** A refresh response without [access_token]: the refresh error, and no
    send call. *)
Example scenario_no_access_token :
  (send_message (Mock.env Mock.not_modified)
     (init (Some "kakao_default") None)
     None (Some {["text" := PStr "hi"]}) fresh).1
  = Raise (AirflowException
             "Kakao Token Refresh Error: Token Refresh Failed: No access_token in response") /\
  calls
    (send_message (Mock.env Mock.not_modified)
       (init (Some "kakao_default") None)
       None (Some {["text" := PStr "hi"]}) fresh).2
  = [token_request].
Proof. split; vm_compute; reflexivity. Qed.

(** * Further properties *)

(** ** Token resolution *)

(** The state after the refresh POST [rq]: the call and the entry that
    announces it are on record, followed by the entries [lg]. *)
Local Abbreviation refreshed st rq lg :=
  {| token_cache := token_cache st;
     calls := calls st ++ [rq];
     logs := (logs st ++ [(INFO, "Refreshing Kakao Access Token...")]) ++ lg |}.

Lemma refresh_exact (E : Env) (self : KakaoHook)
    (headers : list (string * string)) (data : list (string * pyval))
    (st : State) :
  refresh E self headers data st =
  match requests_post E (calls st) (Request (token_url self) headers data) with
  | inl m =>
      (Raise (TransportError m),
       refreshed st (Request (token_url self) headers data) [])
  | inr r =>
      match http_error_msg r with
      | Some m =>
          (Raise (HTTPError m r),
           refreshed st (Request (token_url self) headers data) [])
      | None =>
          match json_loads E (text r) with
          | inl m =>
              (Raise (JSONDecodeError m),
               refreshed st (Request (token_url self) headers data) [])
          | inr (PDict d) =>
              if truthy (default PNone (assoc "access_token" d)) then
                (Return (default PNone (assoc "access_token" d)),
                 refreshed st (Request (token_url self) headers data)
                   (if truthy (default PNone (assoc "refresh_token" d))
                    then [(WARNING, "Refresh Token Rotated.")] else []))
              else
                (Raise (AirflowException
                          "Token Refresh Failed: No access_token in response"),
                 refreshed st (Request (token_url self) headers data) [])
          | inr v =>
              (Raise (AttributeError
                        ("'" +:+ type_name v
                           +:+ "' object has no attribute 'get'")),
               refreshed st (Request (token_url self) headers data) [])
          end
      end
  end.
Proof.
  unfold refresh. unfold_goal.
  destruct (requests_post E (calls st) _) as [m|r]; simpl;
    [by rewrite app_nil_r |].
  destruct (http_error_msg r) as [m|]; simpl; [by rewrite app_nil_r |].
  unfold loads. destruct (json_loads E (text r)) as [m|v]; simpl;
    [by rewrite app_nil_r |].
  destruct v; simpl; try (by rewrite app_nil_r).
  destruct (truthy (default PNone (assoc "access_token" d))); simpl;
    [| by rewrite app_nil_r].
  destruct (truthy (default PNone (assoc "refresh_token" d))); simpl;
    [done | by rewrite app_nil_r].
Qed.

(** With nothing cached, a hook that has to refresh reads its token by
    running the refresh on the call for its connection; what the refresh
    returns is stored, what it raises is logged and wrapped. *)
Lemma token_refreshes (E : Env) (self : KakaoHook) (conn : Connection)
    (rq : request) (st : State) :
  refreshes_with E self conn rq ->
  token_cache st = None ->
  token E self st =
  match refresh E self (req_headers rq) (req_data rq) st with
  | (Return v, st') =>
      (Return v,
       {| token_cache := Some v; calls := calls st'; logs := logs st' |})
  | (Raise e, st') =>
      (Raise (AirflowException ("Kakao Token Refresh Error: " +:+ str_exn e)),
       {| token_cache := token_cache st'; calls := calls st';
          logs := logs st' ++
                  [(ERROR, "Failed to refresh token: " +:+ str_exn e)] |})
  end /\
  req_url rq = token_url self.
Proof.
  intros (Ho & (conn_id & Hid & Hconn) & Hrq) Hc.
  unfold refresh_request in Hrq.
  destruct (nonempty (login conn)) as [client_id|] eqn:Hlogin; [| done].
  destruct (nonempty (password conn)) as [refresh_token|] eqn:Hpw; [| done].
  inversion Hrq; subst rq; clear Hrq. split; [| done].
  rewrite (token_uncached E self st Hc). unfold token_getter.
  rewrite Ho, Hid, Hconn, Hlogin, Hpw. unfold try_except. simpl.
  destruct (extra_dejson conn !! "client_secret") as [secret|]; simpl.
  - destruct (refresh E self _ _ st) as [[v|e] st']; reflexivity.
  - destruct (refresh E self _ _ st) as [[v|e] st']; reflexivity.
Qed.

(** Configuration errors are raised before any network activity: with no
    override and nothing cached, a missing or empty connection id, a failing
    connection lookup, and a connection without client id or refresh token
    each end the read with their own error and leave the state as it was
    (no call, nothing cached, nothing logged).  The lookup's error is not
    wrapped. *)
Theorem token_config_errors_offline (E : Env) (self : KakaoHook) (st : State) :
  nonempty (_token self) = None ->
  token_cache st = None ->
  (nonempty (kakao_conn_id self) = None ->
   token E self st =
   (Raise (AirflowException "No valid Kakao connection supplied."), st)) /\
  (forall conn_id m,
     nonempty (kakao_conn_id self) = Some conn_id ->
     get_connection E conn_id = inl m ->
     token E self st = (Raise (LookupFailure m), st)) /\
  (forall conn_id conn,
     nonempty (kakao_conn_id self) = Some conn_id ->
     get_connection E conn_id = inr conn ->
     nonempty (login conn) = None \/ nonempty (password conn) = None ->
     token E self st =
     (Raise (AirflowException
               "REST API Key (Login) or Refresh Token (Password) is missing in the Connection."),
      st)).
Proof.
  intros Ho Hc. rewrite (token_uncached E self st Hc). unfold token_getter.
  rewrite Ho. repeat split.
  - by intros ->.
  - intros conn_id m -> Hm. by rewrite Hm.
  - intros conn_id conn -> Hconn Hmiss. rewrite Hconn.
    destruct Hmiss as [-> | Hpw]; [done |].
    rewrite Hpw. by destruct (nonempty (login conn)).
Qed.

Lemma token_config_errors_offline_witness :
  token (Mock.env Mock.up) (init (Some EmptyString) None) fresh
  = (Raise (AirflowException "No valid Kakao connection supplied."), fresh).
Proof.
  destruct (token_config_errors_offline (Mock.env Mock.up)
              (init (Some EmptyString) None) fresh) as [Hid _];
    [reflexivity | reflexivity |].
  apply Hid. reflexivity.
Defined.

(** The refresh call: a hook that has to refresh, with nothing cached,
    issues exactly one call per read of the token, whatever the outcome of
    the read.  It goes to the token endpoint and its form holds
    [grant_type=refresh_token], the connection's login as [client_id], its
    password as [refresh_token], and a [client_secret] exactly when the
    connection's extra holds a truthy one. *)
Theorem token_refresh_request (E : Env) (self : KakaoHook) (conn : Connection)
    (rq : request) (st : State) :
  refreshes_with E self conn rq ->
  token_cache st = None ->
  (forall r st', token E self st = (r, st') -> calls st' = calls st ++ [rq]) /\
  req_url rq = token_url self /\
  assoc "grant_type" (req_data rq) = Some (PStr "refresh_token") /\
  assoc "client_id" (req_data rq) = Some (of_opt_str (login conn)) /\
  assoc "refresh_token" (req_data rq) = Some (of_opt_str (password conn)) /\
  assoc "client_secret" (req_data rq) =
    match extra_dejson conn !! "client_secret" with
    | Some secret => if truthy secret then Some secret else None
    | None => None
    end /\
  (length (req_data rq) <= 4)%nat.
Proof.
  intros Hset Hc. destruct (token_refreshes E self conn rq st Hset Hc)
    as [Hrun Hurl].
  split.
  { intros r st' H. rewrite Hrun in H.
    destruct (refresh E self (req_headers rq) (req_data rq) st)
      as [r1 st1] eqn:Href.
    apply refresh_grows in Href. destruct Href as [_ Hl].
    rewrite <- Hurl in Hl. destruct rq. simpl in *.
    destruct r1; inversion H; subst; done. }
  split; [done |].
  destruct Hset as (_ & _ & Hrq). unfold refresh_request in Hrq.
  destruct (login conn) as [cid|]; simpl in Hrq; [| done].
  destruct (String.eqb cid EmptyString); simpl in Hrq; [done |].
  destruct (password conn) as [pw|]; simpl in Hrq; [| done].
  destruct (String.eqb pw EmptyString); simpl in Hrq; [done |].
  inversion Hrq; subst rq; clear Hrq. simpl.
  destruct (extra_dejson conn !! "client_secret") as [secret|];
    [destruct (truthy secret) |]; simpl; repeat split; lia.
Qed.

Lemma token_refresh_request_witness :
  calls (token (Mock.env Mock.down) (init (Some "kakao_default") None)
           fresh).2
  = [token_request].
Proof.
  destruct (token_refresh_request (Mock.env Mock.down)
              (init (Some "kakao_default") None) Mock.conn token_request fresh)
    as [Hcalls _]; [| reflexivity | apply (Hcalls _ _ (surjective_pairing _))].
  split; [reflexivity |]. split; [| reflexivity].
  exists "kakao_default". split; reflexivity.
Defined.

Lemma refresh_failure_run (E : Env) (self : KakaoHook)
    (headers : list (string * string)) (data : list (string * pyval))
    (st : State) (detail : string) :
  refresh_fails E (calls st) (Request (token_url self) headers data) detail ->
  exists e,
    str_exn e = detail /\
    refresh E self headers data st =
    (Raise e, refreshed st (Request (token_url self) headers data) []).
Proof.
  intros Hf. rewrite refresh_exact.
  inversion Hf as [m Hr | r m Hr Hm | r m Hr Hm Hj | r v Hr Hm Hj Hv
                  | r d Hr Hm Hj Ht]; subst; rewrite Hr.
  - eexists; split; [| reflexivity]; done.
  - rewrite Hm. eexists; split; [| reflexivity]; done.
  - rewrite Hm, Hj. eexists; split; [| reflexivity]; done.
  - rewrite Hm, Hj.
    destruct v; try (eexists; split; [| reflexivity]; done).
    by destruct (Hv d).
  - rewrite Hm, Hj, Ht. eexists; split; [| reflexivity]; done.
Qed.

(** Every failure of the refresh is reported the same way: a transport
    error, a 4xx or 5xx status, a body that is not JSON, a JSON body that is
    not an object, and an object without a truthy [access_token] each end
    the read in the exception "Kakao Token Refresh Error: " followed by the
    detail of the failure.  The one call has been made, nothing is cached,
    and the same detail is logged at ERROR level as the last entry. *)
Theorem token_refresh_failure_wrapped (E : Env) (self : KakaoHook)
    (conn : Connection) (rq : request) (st : State) (detail : string) :
  refreshes_with E self conn rq ->
  token_cache st = None ->
  refresh_fails E (calls st) rq detail ->
  exists st',
    token E self st =
    (Raise (AirflowException ("Kakao Token Refresh Error: " +:+ detail)), st') /\
    calls st' = calls st ++ [rq] /\
    token_cache st' = None /\
    last (logs st') = Some (ERROR, "Failed to refresh token: " +:+ detail).
Proof.
  intros Hset Hc Hf.
  destruct (token_refreshes E self conn rq st Hset Hc) as [Hrun Hurl].
  rewrite Hrun. destruct rq as [url headers data]. simpl in *. subst url.
  destruct (refresh_failure_run E self headers data st detail Hf)
    as (e & <- & ->).
  eexists. split; [reflexivity |]. simpl.
  split; [done |]. split; [done |]. by rewrite last_snoc.
Qed.

Lemma token_refresh_failure_wrapped_witness :
  exists st',
    token (Canned.env "ARRAY" "SENT") (init (Some "kakao_default") None) fresh
    = (Raise (AirflowException
                "Kakao Token Refresh Error: 'list' object has no attribute 'get'"),
       st') /\
    calls st' = [token_request] /\
    token_cache st' = None /\
    last (logs st')
    = Some (ERROR,
            "Failed to refresh token: 'list' object has no attribute 'get'").
Proof.
  apply (token_refresh_failure_wrapped (Canned.env "ARRAY" "SENT")
           (init (Some "kakao_default") None) Mock.conn token_request fresh
           "'list' object has no attribute 'get'").
  - split; [reflexivity |]. split; [| reflexivity].
    exists "kakao_default". split; reflexivity.
  - reflexivity.
  - apply (rf_not_object _ _ _
             (Mock.ok "https://kauth.kakao.com/oauth/token" "ARRAY")
             (PList [])); [reflexivity | reflexivity | reflexivity |].
    discriminate.
Defined.

(** A successful refresh, in full: when the refresh call is answered with
    a status that is no error and a JSON object whose [access_token] is
    truthy, the read returns that value and stores it; the call is the only
    one made.  A truthy [refresh_token] in the answer is reported by one
    WARNING entry and goes nowhere else: it is not stored and not sent. *)
Theorem token_refresh_success (E : Env) (self : KakaoHook)
    (conn : Connection) (rq : request) (st : State) (r : response)
    (d : list (string * pyval)) (v : pyval) :
  refreshes_with E self conn rq ->
  token_cache st = None ->
  requests_post E (calls st) rq = inr r ->
  http_error_msg r = None ->
  json_loads E (text r) = inr (PDict d) ->
  assoc "access_token" d = Some v ->
  truthy v = true ->
  token E self st =
  (Return v,
   {| token_cache := Some v;
      calls := calls st ++ [rq];
      logs := (logs st ++ [(INFO, "Refreshing Kakao Access Token...")]) ++
              (if truthy (default PNone (assoc "refresh_token" d))
               then [(WARNING, "Refresh Token Rotated.")] else []) |}).
Proof.
  intros Hset Hc Hr Hm Hj Ha Ht.
  destruct (token_refreshes E self conn rq st Hset Hc) as [Hrun Hurl].
  rewrite Hrun. destruct rq as [url headers data]. simpl in *. subst url.
  rewrite refresh_exact, Hr, Hm, Hj, Ha. simpl. by rewrite Ht.
Qed.

Lemma token_refresh_success_witness :
  token (Canned.env "ROTATED" "SENT") (init (Some "kakao_default") None) fresh
  = (Return (PStr "tok2"),
     {| token_cache := Some (PStr "tok2");
        calls := [token_request];
        logs := [(INFO, "Refreshing Kakao Access Token...");
                 (WARNING, "Refresh Token Rotated.")] |}).
Proof.
  apply (token_refresh_success (Canned.env "ROTATED" "SENT")
           (init (Some "kakao_default") None) Mock.conn token_request fresh
           (Mock.ok "https://kauth.kakao.com/oauth/token" "ROTATED")
           [("access_token", PStr "tok2"); ("refresh_token", PStr "refresh2")]
           (PStr "tok2")); try reflexivity.
  split; [reflexivity |]. split; [| reflexivity].
  exists "kakao_default". split; reflexivity.
Defined.

(** The read of the token succeeds in no other way: for a hook that has to
    refresh, with nothing cached, the read returns [v] exactly when the
    refresh call is answered with a non-error status and a JSON object
    whose [access_token] is the truthy value [v]. *)
Theorem token_returns_iff (E : Env) (self : KakaoHook)
    (conn : Connection) (rq : request) (st : State) (v : pyval) :
  refreshes_with E self conn rq ->
  token_cache st = None ->
  (exists st', token E self st = (Return v, st')) <->
  (exists r d,
     requests_post E (calls st) rq = inr r /\
     http_error_msg r = None /\
     json_loads E (text r) = inr (PDict d) /\
     assoc "access_token" d = Some v /\
     truthy v = true).
Proof.
  intros Hset Hc.
  destruct (token_refreshes E self conn rq st Hset Hc) as [Hrun Hurl].
  split.
  - intros [st' H]. rewrite Hrun in H.
    destruct (refresh E self (req_headers rq) (req_data rq) st)
      as [[v0|e] st0] eqn:Href; [| done].
    inversion H; subst v0; clear H.
    destruct (refresh_returns E self _ _ st v st0 Href)
      as (Ht & r & d & Hr & Hm & Hj & Ha).
    exists r, d. rewrite <- Hurl in Hr. by destruct rq.
  - intros (r & d & Hr & Hm & Hj & Ha & Ht). rewrite Hrun.
    destruct rq as [url headers data]. simpl in *. subst url.
    rewrite refresh_exact, Hr, Hm, Hj, Ha. simpl. rewrite Ht. eauto.
Qed.

Lemma token_returns_iff_witness :
  exists st',
    token (Mock.env Mock.up) (init (Some "kakao_default") None) fresh
    = (Return (PStr "tok1"), st').
Proof.
  apply (token_returns_iff (Mock.env Mock.up)
           (init (Some "kakao_default") None) Mock.conn token_request fresh
           (PStr "tok1")).
  - split; [reflexivity |]. split; [| reflexivity].
    exists "kakao_default". split; reflexivity.
  - reflexivity.
  - exists (Mock.ok "https://kauth.kakao.com/oauth/token" "TOKEN"),
      [("access_token", PStr "tok1")].
    repeat split; reflexivity.
Defined.

(** ** Dispatch, call by call *)

Section Calls.

Context (E : Env) (self : KakaoHook) (tok payload : pyval).

Local Abbreviation headers := (send_headers E tok).
Local Abbreviation req := (fun b : nat * list string =>
                             friend_request E self tok payload b.2).
Local Abbreviation batched st idx n chunk lg :=
  {| token_cache := token_cache st;
     calls := calls st ++ [friend_request E self tok payload chunk];
     logs := (logs st ++
              [(INFO, "Processing batch " +:+ pretty (idx + 1)%nat +:+ "/"
                        +:+ pretty n +:+ " (Count: "
                        +:+ pretty (length chunk) +:+ ")")]) ++ lg |}.

(** One iteration of the loop. *)
Lemma send_batches_head n idx chunk rest results st :
  send_batches E self headers payload n ((idx, chunk) :: rest) results st =
  match send_outcome E (calls st) (friend_request E self tok payload chunk)
          true with
  | Return doc =>
      send_batches E self headers payload n rest (results ++ [doc])
        (batched st idx n chunk
           (match batch_warning E (idx, doc) with
            | Some w => [(WARNING, w)]
            | None => []
            end))
  | Raise e => (Raise e, batched st idx n chunk [])
  end.
Proof.
  simpl. unfold_goal. unfold send_outcome, friend_request. simpl.
  destruct (requests_post E (calls st) _) as [m|r]; simpl;
    [by rewrite app_nil_r |].
  destruct (http_error_msg r) as [m|]; simpl; [by rewrite app_nil_r |].
  unfold loads. destruct (json_loads E (text r)) as [m|v]; simpl;
    [by rewrite app_nil_r |].
  destruct v; simpl; try (by rewrite app_nil_r).
  unfold batch_warning. simpl.
  destruct (truthy (default (PList []) (assoc "failure_info" d))); simpl;
    [done | by rewrite app_nil_r].
Qed.

(** The loop issues a prefix of its calls, in order; if it returns, it has
    issued all of them and appended one response for each. *)
Lemma send_batches_trace n batches results st r st' :
  send_batches E self headers payload n batches results st = (r, st') ->
  token_cache st' = token_cache st /\
  exists k,
    calls st' = calls st ++ take k (req <$> batches) /\
    match r with
    | Return docs =>
        k = length batches /\
        length docs = (length results + length batches)%nat
    | Raise _ => (0 < k <= length batches)%nat
    end.
Proof.
  revert results st. induction batches as [|[idx chunk] rest IH];
    intros results st H.
  - inversion H; subst. split; [done |]. exists 0%nat. simpl.
    rewrite app_nil_r. split; [done |]. split; [done | lia].
  - rewrite send_batches_head in H.
    destruct (send_outcome E (calls st) _ true) as [doc|e].
    + apply IH in H. destruct H as (Hc & k & Hl & Hr). simpl in Hc, Hl.
      split; [done |]. exists (S k). simpl. rewrite Hl, <- app_assoc.
      split; [done |]. destruct r as [docs|e].
      * destruct Hr as [-> Hlen]. rewrite length_app in Hlen. simpl in Hlen.
        split; [done | lia].
      * lia.
    + inversion H; subst; clear H. simpl. split; [done |].
      exists 1%nat. simpl. rewrite take_0. split; [done | lia].
Qed.

End Calls.

Section Stops.

Context (E : Env) (self : KakaoHook) (tok payload : pyval).

(** Self-send, in full. *)
Lemma dispatch_me_exact uuids st :
  nonempty_list uuids = None ->
  try_except (dispatch E self (send_headers E tok) payload uuids [])
    on_http_error st =
  match send_outcome E (calls st) (me_request E self tok payload) false with
  | Return v =>
      (Return [v],
       {| token_cache := token_cache st;
          calls := calls st ++ [me_request E self tok payload];
          logs := logs st ++
                  [(INFO, "All requests completed successfully.")] |})
  | Raise e =>
      (Raise (reraised e),
       {| token_cache := token_cache st;
          calls := calls st ++ [me_request E self tok payload];
          logs := logs st ++
                  match e with
                  | HTTPError _ r => [(ERROR, "HTTP Error: " +:+ text r)]
                  | _ => []
                  end |})
  end.
Proof.
  intros Hn. unfold dispatch. rewrite Hn. unfold_goal.
  unfold send_outcome, me_request.
  destruct (requests_post E (calls st) _) as [m|r]; simpl;
    [by rewrite app_nil_r |].
  destruct (http_error_msg r) as [m|]; simpl; [done |].
  unfold loads. destruct (json_loads E (text r)) as [m|v]; simpl;
    [by rewrite app_nil_r | done].
Qed.

(** Whatever a dispatch does, the calls it makes are the first [k] of the
    planned ones, for some positive [k]; all of them if it returns, with one
    response for each. *)
Lemma dispatch_trace uuids st r st' :
  try_except (dispatch E self (send_headers E tok) payload uuids [])
    on_http_error st = (r, st') ->
  exists k,
    (0 < k)%nat /\
    calls st' = calls st ++ take k (planned E self tok payload uuids) /\
    match r with
    | Return docs =>
        calls st' = calls st ++ planned E self tok payload uuids /\
        length docs = length (planned E self tok payload uuids)
    | Raise _ => True
    end.
Proof.
  intros H. unfold planned.
  destruct (nonempty_list uuids) as [l|] eqn:Hn.
  - destruct (dispatch_friends_run E self (send_headers E tok) payload uuids
                l [] st Hn) as (st0 & [Hc0 Hl0] & Hrun).
    unfold try_except in H. rewrite Hrun in H. clear Hrun.
    rewrite app_nil_r in Hl0.
    destruct (send_batches E self (send_headers E tok) payload
                (length (chunks l 5)) (enumerate (chunks l 5)) [] st0)
      as [r1 st1] eqn:Hloop.
    apply send_batches_trace in Hloop. destruct Hloop as (Hc1 & k & Hl1 & Hr1).
    rewrite enumerate_requests, Hl0 in Hl1.
    assert (Hlen : length (enumerate (chunks l 5)) = length (chunks l 5)).
    { rewrite <- (enumerate_snd (chunks l 5)) at 2. by rewrite length_fmap. }
    assert (Hpos : (0 < length (chunks l 5))%nat).
    { assert (l <> []) by (destruct uuids as [[|]|]; simpl in Hn; congruence).
      pose proof (chunks_nonempty l 5 ltac:(lia) H0).
      destruct (chunks l 5); [done | simpl; lia]. }
    destruct r1 as [docs|e].
    + destruct Hr1 as [-> Hdocs]. unfold_run H. simpl in H.
      inversion H; subst; clear H. simpl.
      rewrite Hlen in *. exists (length (chunks l 5)). split; [done |].
      rewrite <- (length_fmap (friend_request E self tok payload)) at 1.
      rewrite <- (length_fmap (friend_request E self tok payload)) in Hl1.
      rewrite firstn_all in Hl1 |- *.
      split; [done |]. split; [done |]. by rewrite length_fmap.
    + assert (Hcalls : calls st' = calls st1).
      { destruct e; unfold_run H; simpl in H; inversion H; subst; done. }
      exists k. rewrite Hcalls. split; [lia |]. split; [done |].
      destruct e; unfold_run H; simpl in H; inversion H; subst; done.
  - rewrite (dispatch_me_exact uuids st Hn) in H.
    exists 1%nat. split; [lia |].
    destruct (send_outcome E (calls st) _ false) as [v|e];
      inversion H; subst; clear H; simpl; done.
Qed.

(** A dispatch whose call at position [k] raises ends there. *)
Lemma planned_stop uuids st k rq docs e :
  planned E self tok payload uuids !! k = Some rq ->
  served E (calls st) (take k (planned E self tok payload uuids)) docs ->
  send_outcome E (calls st ++ take k (planned E self tok payload uuids)) rq
    (bool_decide (is_Some (nonempty_list uuids))) = Raise e ->
  exists st',
    try_except (dispatch E self (send_headers E tok) payload uuids [])
      on_http_error st = (Raise (reraised e), st') /\
    calls st' = calls st ++ take (S k) (planned E self tok payload uuids) /\
    forall m r, e = HTTPError m r ->
                last (logs st') = Some (ERROR, "HTTP Error: " +:+ text r).
Proof.
  unfold planned. intros Hk Hs Hout.
  destruct (nonempty_list uuids) as [l|] eqn:Hn.
  - rewrite bool_decide_eq_true_2 in Hout by eauto.
    destruct (dispatch_friends_run E self (send_headers E tok) payload uuids
                l [] st Hn) as (st0 & [Hc0 Hl0] & Hrun).
    unfold try_except. rewrite Hrun. clear Hrun.
    rewrite app_nil_r in Hl0.
    rewrite <- enumerate_requests in Hk, Hs, Hout |- *.
    set (batches := enumerate (chunks l 5)) in *.
    rewrite list_lookup_fmap in Hk.
    destruct (batches !! k) as [[idx chunk]|] eqn:Hb; [| done].
    simpl in Hk. inversion Hk; subst rq; clear Hk.
    rewrite <- fmap_take in Hs, Hout |- *.
    rewrite (take_S_r _ _ _ Hb).
    replace (send_batches E self (send_headers E tok) payload
               (length (chunks l 5)) batches [] st0)
      with (send_batches E self (send_headers E tok) payload
              (length (chunks l 5))
              (take k batches ++ (idx, chunk) :: drop (S k) batches) [] st0)
      by (by rewrite (take_drop_middle _ _ _ Hb)).
    rewrite <- Hl0 in Hs, Hout.
    destruct (send_batches_prefix E self tok payload (length (chunks l 5))
                (take k batches) ((idx, chunk) :: drop (S k) batches) [] st0
                docs Hs) as (st1 & [Hc1 Hl1] & Heq).
    rewrite Heq, send_batches_head. rewrite <- Hl1 in Hout. rewrite Hout.
    assert (Hcalls :
              calls st1 ++ [friend_request E self tok payload chunk] =
              calls st ++
              ((fun b : nat * list string =>
                  friend_request E self tok payload b.2)
                 <$> (take k batches ++ [(idx, chunk)]))).
    { rewrite fmap_app, Hl1, Hl0. simpl. by rewrite app_assoc. }
    destruct e; simpl; eexists; (split; [reflexivity |]); simpl;
      (split; [exact Hcalls |]); intros m0 r0 He; inversion He; subst.
    by rewrite last_snoc.
  - rewrite bool_decide_eq_false_2 in Hout by (intros [? ?]; done).
    destruct k as [|k]; [| done]. simpl in Hk. inversion Hk; subst rq.
    simpl in Hout. rewrite app_nil_r in Hout.
    rewrite (dispatch_me_exact uuids st Hn), Hout.
    eexists. split; [reflexivity |]. simpl. split; [done |].
    intros m r He. subst e. by rewrite last_snoc.
Qed.

End Stops.

(** The calls that a dispatch plans are the spelled-out ones. *)
Lemma planned_wire (E : Env) (self : KakaoHook) (tok payload : pyval)
    (uuids : option (list string)) :
  planned E self tok payload uuids = wire_calls E self tok payload uuids.
Proof. unfold planned, wire_calls. by destruct uuids as [[|x l]|]. Qed.

(** Once the token is read and the payload built, the calls of
    [send_message] are a non-empty prefix of the spelled-out ones. *)
Lemma send_message_wire (E : Env) (self : KakaoHook)
    (uuids : option (list string)) (api_params : option (gmap string pyval))
    (st : State) (tok : pyval) (st1 : State) (payload : pyval)
    (r : outcome (list pyval)) (st' : State) :
  token E self st = (Return tok, st1) ->
  build_payload E api_params "http://localhost:8080" = Return payload ->
  send_message E self uuids api_params st = (r, st') ->
  exists k,
    (0 < k <= length (wire_calls E self tok payload uuids))%nat /\
    calls st' = calls st1 ++ take k (wire_calls E self tok payload uuids) /\
    forall docs,
      r = Return docs ->
      k = length (wire_calls E self tok payload uuids) /\
      length docs = length (wire_calls E self tok payload uuids).
Proof.
  intros Htok Hb H. rewrite send_message_run, Htok, Hb in H.
  destruct (dispatch_trace E self tok payload uuids st1 r st' H)
    as (k & Hk & Hl & Hr).
  rewrite planned_wire in Hl, Hr.
  set (reqs := wire_calls E self tok payload uuids) in *.
  assert (Hpos : (0 < length reqs)%nat).
  { subst reqs. rewrite <- planned_wire. unfold planned.
    destruct (nonempty_list uuids) as [l|] eqn:Hn; [| simpl; lia].
    assert (l <> []) by (destruct uuids as [[|]|]; simpl in Hn; congruence).
    pose proof (chunks_nonempty l 5 ltac:(lia) H0).
    rewrite length_fmap. destruct (chunks l 5); [done | simpl; lia]. }
  destruct r as [docs|e].
  - destruct Hr as [Hall Hlen]. exists (length reqs).
    split; [lia |]. rewrite firstn_all. split; [done |].
    intros docs' Hd. inversion Hd; subst. done.
  - destruct (decide (k <= length reqs)%nat) as [Hle|Hgt].
    + exists k. split; [lia |]. split; [done |]. intros docs Hd. done.
    + exists (length reqs). split; [lia |].
      rewrite firstn_all. rewrite take_ge in Hl by lia.
      split; [done |]. intros docs Hd. done.
Qed.

(** ** What the batches carry *)

(** C2, as stated, fails: the number of friend-send calls is ceil(N/5) only
    when no call fails.  For twelve recipients and a server that answers
    500, [send_message] raises after the first of the three batch calls. *)
Lemma C2_failed_batch_cuts_calls :
  (send_message (Mock.env Mock.down) (init (Some "kakao_default") (Some "tk"))
     (Some twelve) (Some {["text" := PStr "hi"]}) fresh).1
  = Raise (AirflowException
             "KakaoTalk Send Error: 500 Server Error: Internal Server Error for url: https://kapi.kakao.com/v1/api/talk/friends/message/default/send") /\
  length
    (calls
       (send_message (Mock.env Mock.down)
          (init (Some "kakao_default") (Some "tk"))
          (Some twelve) (Some {["text" := PStr "hi"]}) fresh).2) = 1%nat /\
  ((length twelve + 4) / 5 = 3)%nat.
Proof. repeat split; vm_compute; reflexivity. Qed.

(** C2, amended: for a non-empty recipient list of length N, once the token
    is read and the payload built, the calls that [send_message] issues are
    the first [k] of the batch calls, in order, for some [k] from 1 to the
    number of chunks.  The batch call of a chunk goes to the friend-send
    endpoint with the bearer-token header, the JSON array of that chunk's
    recipients as [receiver_uuids] and the JSON text of the payload as
    [template_object].  All batch calls are issued whenever [send_message]
    returns, with one response per call, and it does return when every
    batch is answered well.  There are ceil(N/5) chunks; the chunk at
    position [i] is the slice of at most five recipients that starts at
    [5 * i]; the chunks concatenate to the original list; only the last
    chunk may hold fewer than five. *)
Theorem C2_batches_of_five (E : Env) (self : KakaoHook)
    (uuids : list string) (api_params : option (gmap string pyval))
    (st : State) (tok : pyval) (st1 : State) (payload : pyval) :
  uuids <> [] ->
  token E self st = (Return tok, st1) ->
  build_payload E api_params "http://localhost:8080" = Return payload ->
  let batch_call := fun chunk : list string =>
    {| req_url := send_friend_url self;
       req_headers :=
         [("Authorization", "Bearer " +:+ py_str E tok);
          ("Content-Type", "application/x-www-form-urlencoded")];
       req_data :=
         [("receiver_uuids", PStr (json_dumps E (PList (PStr <$> chunk))));
          ("template_object", PStr (json_dumps E payload))] |} in
  (forall r st',
     send_message E self (Some uuids) api_params st = (r, st') ->
     exists k,
       (0 < k <= length (chunks uuids 5))%nat /\
       calls st' = calls st1 ++ take k (batch_call <$> chunks uuids 5) /\
       forall docs,
         r = Return docs ->
         k = length (chunks uuids 5) /\
         length docs = length (chunks uuids 5)) /\
  (forall docs,
     served E (calls st1) (batch_call <$> chunks uuids 5) docs ->
     exists st',
       send_message E self (Some uuids) api_params st = (Return docs, st') /\
       calls st' = calls st1 ++ (batch_call <$> chunks uuids 5)) /\
  length (chunks uuids 5) = ((length uuids + 4) / 5)%nat /\
  (5 * (length (chunks uuids 5) - 1) < length uuids
     <= 5 * length (chunks uuids 5))%nat /\
  concat (chunks uuids 5) = uuids /\
  forall i chunk,
    chunks uuids 5 !! i = Some chunk ->
    chunk = take 5 (drop (i * 5) uuids) /\
    (0 < length chunk <= 5)%nat /\
    (S i < length (chunks uuids 5) -> length chunk = 5)%nat.
Proof.
  intros Hne Htok Hb batch_call.
  assert (Hn : nonempty_list (Some uuids) = Some uuids)
    by (by destruct uuids).
  assert (Hw : wire_calls E self tok payload (Some uuids)
               = batch_call <$> chunks uuids 5)
    by (by destruct uuids).
  split; [| split; [| split; [| split; [| split]]]].
  - intros r st' H.
    destruct (send_message_wire E self (Some uuids) api_params st tok st1
                payload r st' Htok Hb H) as (k & Hk & Hl & Hr).
    rewrite Hw in Hk, Hl, Hr. rewrite length_fmap in Hk, Hr.
    exists k. done.
  - intros docs Hs.
    change (batch_call <$> chunks uuids 5)
      with (friend_request E self tok payload <$> chunks uuids 5) in Hs |- *.
    destruct (dispatch_friends E self tok payload (Some uuids) uuids st1 docs
                Hn Hs) as (st2 & [Hc Hl] & Hrun).
    exists st2. by rewrite send_message_run, Htok, Hb, Hrun.
  - apply chunks_length.
  - rewrite chunks_length.
    assert (0 < length uuids)%nat by (destruct uuids; [done | simpl; lia]).
    pose proof (Nat.div_mod_eq (length uuids + 4) 5).
    pose proof (Nat.mod_upper_bound (length uuids + 4) 5). lia.
  - apply chunks_concat. lia.
  - apply chunks_shape.
Qed.

Lemma C2_batches_of_five_witness :
  exists st',
    send_message (Mock.env Mock.up) (init (Some "kakao_default") None)
      (Some twelve) (Some {["text" := PStr "hi"]}) fresh
    = (Return [PDict [("result_code", PInt 0)];
               PDict [("result_code", PInt 0)];
               PDict [("result_code", PInt 0)]], st') /\
    (fun rq => assoc "receiver_uuids" (req_data rq)) <$> calls st' =
      [None;
       Some (PStr (json_dumps (Mock.env Mock.up)
                     (PList [PStr "u01"; PStr "u02"; PStr "u03"; PStr "u04";
                             PStr "u05"])));
       Some (PStr (json_dumps (Mock.env Mock.up)
                     (PList [PStr "u06"; PStr "u07"; PStr "u08"; PStr "u09";
                             PStr "u10"])));
       Some (PStr (json_dumps (Mock.env Mock.up)
                     (PList [PStr "u11"; PStr "u12"])))].
Proof.
  destruct (C2_batches_of_five (Mock.env Mock.up)
              (init (Some "kakao_default") None) twelve
              (Some {["text" := PStr "hi"]}) fresh (PStr "tok1")
              {| token_cache := Some (PStr "tok1");
                 calls := [token_request];
                 logs := [(INFO, "Refreshing Kakao Access Token...")] |}
              hi_payload)
    as (_ & Hgood & _).
  - done.
  - vm_compute. reflexivity.
  - vm_compute. reflexivity.
  - destruct (Hgood [PDict [("result_code", PInt 0)];
                     PDict [("result_code", PInt 0)];
                     PDict [("result_code", PInt 0)]])
      as (st' & Hrun & Hl).
    + simpl. repeat split; eauto; eexists; repeat split;
        vm_compute; reflexivity.
    + exists st'. split; [exact Hrun |]. rewrite Hl. reflexivity.
Defined.

(** ** Falsy parameter values *)

(** C10, as stated, fails for one falsy value: the empty string under
    ['template_object'] is a string, so it goes to the JSON parser, whose
    error ends [send_message] before anything is dispatched. *)
Lemma C10_empty_template_string_is_parsed :
  send_message (Mock.env Mock.up) (init (Some "kakao_default") (Some "tk"))
    None (Some {["template_object" := PStr EmptyString]}) fresh
  = (Raise (JSONDecodeError "Expecting value: line 1 column 1 (char 0)"),
     {| token_cache := Some (PStr "tk"); calls := []; logs := [] |}).
Proof. vm_compute. reflexivity. Qed.

(** C10, amended, for the values that JSON has ([None], booleans,
    integers, strings, lists and dicts of them): when ['template_object']
    or, without it, ['text'] is a key of [api_params], whatever value [v] it
    maps to, truthy or not, [send_message] never ends in the validation
    error.  Once the token is read, every send call issued is one of the
    spelled-out calls, in order and at least one, whose [template_object]
    is the JSON text of the payload: of [v] itself for a ['template_object']
    that is not a string ([None] goes on the wire as [null]), and of the
    text object that holds [v] for a ['text'].  A ['template_object']
    string, the empty one included, goes to the JSON parser first: what it
    parses to is the payload, and when the parser rejects it, its error is
    the result and the state is the one the token read left, so nothing is
    dispatched. *)
Theorem C10_membership_not_truthiness (E : Env) (self : KakaoHook)
    (uuids : option (list string)) (d : gmap string pyval) (v : pyval)
    (st : State) :
  d !! "template_object" = Some v \/
  (d !! "template_object" = None /\ d !! "text" = Some v) ->
  (forall r st',
     send_message E self uuids (Some d) st = (r, st') ->
     r <> Raise (AirflowException
                   "message_args must contain 'text' or 'template_object'.")) /\
  (forall tok st1 r st',
     token E self st = (Return tok, st1) ->
     send_message E self uuids (Some d) st = (r, st') ->
     (d !! "template_object" = Some v -> (forall s, v <> PStr s) ->
      exists k,
        (0 < k <= length (wire_calls E self tok v uuids))%nat /\
        calls st' = calls st1 ++ take k (wire_calls E self tok v uuids)) /\
     (d !! "template_object" = None ->
      exists k,
        (0 < k <= length
                    (wire_calls E self tok
                       (PDict [("object_type", PStr "text");
                               ("text", v);
                               ("link",
                                PDict [("web_url",
                                        default (PStr "http://localhost:8080")
                                          (d !! "web_url"));
                                       ("mobile_web_url",
                                        default
                                          (default
                                             (PStr "http://localhost:8080")
                                             (d !! "web_url"))
                                          (d !! "mobile_web_url"))])])
                       uuids))%nat /\
        calls st' =
          calls st1 ++
          take k
            (wire_calls E self tok
               (PDict [("object_type", PStr "text");
                       ("text", v);
                       ("link",
                        PDict [("web_url",
                                default (PStr "http://localhost:8080")
                                  (d !! "web_url"));
                               ("mobile_web_url",
                                default
                                  (default (PStr "http://localhost:8080")
                                     (d !! "web_url"))
                                  (d !! "mobile_web_url"))])])
               uuids)) /\
     (forall s,
        d !! "template_object" = Some (PStr s) ->
        match json_loads E s with
        | inr parsed =>
            exists k,
              (0 < k <= length (wire_calls E self tok parsed uuids))%nat /\
              calls st' =
                calls st1 ++ take k (wire_calls E self tok parsed uuids)
        | inl m => r = Raise (JSONDecodeError m) /\ st' = st1
        end)) /\
  json_dumps E PNone = "null".
Proof.
  intros Hkey. split; [| split; [| done]].
  - intros r st' H Hr. subst r. rewrite send_message_run in H.
    destruct (token E self st) as [r1 st1] eqn:Htok.
    apply token_step in Htok. destruct Htok as [_ Hr1].
    destruct r1 as [tok|e].
    + destruct (build_payload E (Some d) _) as [payload|e] eqn:Hb.
      * apply dispatch_inv in H. destruct H as (_ & _ & He).
        by apply (He _ eq_refl).
      * inversion H; subst e. unfold build_payload, py_in, params_get in Hb.
        destruct Hkey as [Htpl | [Htpl Htext]].
        -- rewrite Htpl in Hb.
           rewrite bool_decide_eq_true_2 in Hb by eauto. simpl in Hb.
           destruct v; try discriminate.
           unfold loads in Hb. destruct (json_loads E s); discriminate.
        -- rewrite Htpl, Htext in Hb.
           rewrite bool_decide_eq_false_2 in Hb by (intros [? ?]; done).
           rewrite bool_decide_eq_true_2 in Hb by eauto. discriminate.
    + inversion H; subst e. destruct Hr1 as [_ He].
      by apply (token_error_not_invalid _ He).
  - intros tok st1 r st' Htok H. split; [| split].
    + intros Htpl Hstr.
      destruct (payload_of_template E d v Htpl) as [_ Hb].
      destruct (send_message_wire E self uuids (Some d) st tok st1 v r st'
                  Htok (Hb Hstr) H) as (k & Hk & Hl & _).
      exists k. done.
    + intros Htpl. destruct Hkey as [Hv | [_ Htext]]; [congruence |].
      match goal with
      | |- context [wire_calls E self tok ?p uuids] =>
          assert (Hb : build_payload E (Some d) "http://localhost:8080"
                       = Return p)
      end.
      { unfold build_payload, py_in, params_get. rewrite Htpl, Htext.
        rewrite bool_decide_eq_false_2 by (intros [? ?]; done).
        rewrite bool_decide_eq_true_2 by eauto. done. }
      destruct (send_message_wire E self uuids (Some d) st tok st1 _ r st'
                  Htok Hb H) as (k & Hk & Hl & _).
      exists k. done.
    + intros s Htpl.
      destruct (payload_of_template E d (PStr s) Htpl) as [Hb _].
      unfold loads in Hb.
      destruct (json_loads E s) as [m|parsed].
      * rewrite send_message_run, Htok, Hb in H. by inversion H.
      * destruct (send_message_wire E self uuids (Some d) st tok st1 parsed
                    r st' Htok Hb H) as (k & Hk & Hl & _).
        exists k. done.
Qed.

Lemma C10_membership_not_truthiness_witness :
  (send_message (Mock.env Mock.up) (init (Some "kakao_default") (Some "tk"))
     None (Some {["template_object" := PNone]}) fresh).1
  <> Raise (AirflowException
              "message_args must contain 'text' or 'template_object'.") /\
  calls
    (send_message (Mock.env Mock.up) (init (Some "kakao_default") (Some "tk"))
       None (Some {["template_object" := PNone]}) fresh).2
  = [{| req_url := "https://kapi.kakao.com/v2/api/talk/memo/default/send";
        req_headers :=
          [("Authorization", "Bearer tk");
           ("Content-Type", "application/x-www-form-urlencoded")];
        req_data := [("template_object", PStr "null")] |}].
Proof.
  destruct (C10_membership_not_truthiness (Mock.env Mock.up)
              (init (Some "kakao_default") (Some "tk")) None
              {["template_object" := PNone]} PNone fresh)
    as (Hne & Hwire & _); [left; reflexivity |].
  split.
  - apply (Hne _ _ (surjective_pairing _)).
  - destruct (Hwire (PStr "tk")
                {| token_cache := Some (PStr "tk"); calls := []; logs := [] |}
                _ _ ltac:(vm_compute; reflexivity) (surjective_pairing _))
      as [Htpl _].
    destruct (Htpl ltac:(reflexivity) ltac:(discriminate))
      as (k & [Hpos Hle] & Hl).
    rewrite Hl. simpl in Hle. destruct k as [|[|k]]; [lia | reflexivity | lia].
Defined.

(** ** What one [send_message] puts on the wire *)

(** Every call that [send_message] makes is accounted for: at most one
    token-refresh call first, and then, if the token was read and the
    payload built, the first [k] of the planned send calls in their order,
    for some positive [k].  When [send_message] returns, all planned calls
    were made and the result holds one response per call. *)
Theorem send_message_trace (E : Env) (self : KakaoHook)
    (uuids : option (list string)) (api_params : option (gmap string pyval))
    (st : State) (r : outcome (list pyval)) (st' : State) :
  send_message E self uuids api_params st = (r, st') ->
  exists st1,
    token_traffic self st st1 /\
    (((exists e, r = Raise e) /\ calls st' = calls st1) \/
     exists tok payload k,
       token E self st = (Return tok, st1) /\
       build_payload E api_params "http://localhost:8080" = Return payload /\
       (0 < k)%nat /\
       calls st' = calls st1 ++ take k (planned E self tok payload uuids) /\
       match r with
       | Return docs =>
           calls st' = calls st1 ++ planned E self tok payload uuids /\
           length docs = length (planned E self tok payload uuids)
       | Raise _ => True
       end).
Proof.
  intros H. rewrite send_message_run in H.
  destruct (token E self st) as [r1 st1] eqn:Htok. exists st1.
  destruct (token_step E self st r1 st1 Htok) as [Htraffic _].
  split; [done |]. destruct r1 as [tok|e].
  - destruct (build_payload E api_params _) as [payload|e] eqn:Hb.
    + right. exists tok, payload.
      destruct (dispatch_trace E self tok payload uuids st1 r st' H)
        as (k & Hk & Hl & Hr).
      exists k. done.
    + left. inversion H; subst. eauto.
  - left. inversion H; subst. eauto.
Qed.

Lemma send_message_trace_witness :
  exists st1,
    token_traffic (init (Some "kakao_default") None) fresh st1 /\
    (((exists e,
         (send_message (Mock.env Mock.flaky)
            (init (Some "kakao_default") None) (Some twelve)
            (Some {["text" := PStr "hi"]}) fresh).1 = Raise e) /\
      calls
        (send_message (Mock.env Mock.flaky)
           (init (Some "kakao_default") None) (Some twelve)
           (Some {["text" := PStr "hi"]}) fresh).2 = calls st1) \/
     exists tok payload k,
       token (Mock.env Mock.flaky) (init (Some "kakao_default") None) fresh
       = (Return tok, st1) /\
       build_payload (Mock.env Mock.flaky) (Some {["text" := PStr "hi"]})
         "http://localhost:8080" = Return payload /\
       (0 < k)%nat /\
       calls
         (send_message (Mock.env Mock.flaky)
            (init (Some "kakao_default") None) (Some twelve)
            (Some {["text" := PStr "hi"]}) fresh).2
       = calls st1 ++
         take k (planned (Mock.env Mock.flaky)
                   (init (Some "kakao_default") None) tok payload
                   (Some twelve)) /\
       match
         (send_message (Mock.env Mock.flaky)
            (init (Some "kakao_default") None) (Some twelve)
            (Some {["text" := PStr "hi"]}) fresh).1
       with
       | Return docs =>
           calls
             (send_message (Mock.env Mock.flaky)
                (init (Some "kakao_default") None) (Some twelve)
                (Some {["text" := PStr "hi"]}) fresh).2
           = calls st1 ++
             planned (Mock.env Mock.flaky)
               (init (Some "kakao_default") None) tok payload (Some twelve) /\
           length docs
           = length (planned (Mock.env Mock.flaky)
                       (init (Some "kakao_default") None) tok payload
                       (Some twelve))
       | Raise _ => True
       end).
Proof.
  apply (send_message_trace (Mock.env Mock.flaky)
           (init (Some "kakao_default") None) (Some twelve)
           (Some {["text" := PStr "hi"]}) fresh).
  apply surjective_pairing.
Defined.

(** A send call answered with a body that is not JSON ends [send_message]
    in the parser's [JSONDecodeError], which is not wrapped; the calls on
    record are exactly the first [k + 1] of the dispatch. *)
Theorem send_body_not_json (E : Env) (self : KakaoHook)
    (uuids : option (list string)) (api_params : option (gmap string pyval))
    (st : State) (tok : pyval) (st1 : State) (payload : pyval)
    (k : nat) (rq : request) (docs : list pyval) (r : response) (m : string) :
  token E self st = (Return tok, st1) ->
  build_payload E api_params "http://localhost:8080" = Return payload ->
  planned E self tok payload uuids !! k = Some rq ->
  served E (calls st1) (take k (planned E self tok payload uuids)) docs ->
  requests_post E (calls st1 ++ take k (planned E self tok payload uuids)) rq
    = inr r ->
  http_error_msg r = None ->
  json_loads E (text r) = inl m ->
  exists st',
    send_message E self uuids api_params st = (Raise (JSONDecodeError m), st') /\
    calls st' = calls st1 ++ take (S k) (planned E self tok payload uuids).
Proof.
  intros Htok Hb Hk Hs Hr Hm Hj.
  destruct (planned_stop E self tok payload uuids st1 k rq docs
              (JSONDecodeError m) Hk Hs) as (st' & Hrun & Hl & _).
  { unfold send_outcome. by rewrite Hr, Hm, Hj. }
  exists st'. by rewrite send_message_run, Htok, Hb, Hrun.
Qed.

Lemma send_body_not_json_witness :
  exists st',
    send_message (Canned.env "TOKEN" "not json") (init (Some "kakao_default") None)
      None (Some {["text" := PStr "hi"]})
      {| token_cache := Some (PStr "tk");
         calls := [token_request; token_request]; logs := [] |}
    = (Raise (JSONDecodeError "Expecting value: line 1 column 1 (char 0)"),
       st') /\
    length (calls st') = 3%nat.
Proof.
  destruct (send_body_not_json (Canned.env "TOKEN" "not json")
              (init (Some "kakao_default") None)
              None (Some {["text" := PStr "hi"]})
              {| token_cache := Some (PStr "tk");
                 calls := [token_request; token_request]; logs := [] |}
              (PStr "tk")
              {| token_cache := Some (PStr "tk");
                 calls := [token_request; token_request]; logs := [] |}
              hi_payload 0
              (me_request (Canned.env "TOKEN" "not json")
                 (init (Some "kakao_default") None) (PStr "tk") hi_payload)
              []
              {| status_code := 200; reason := "OK";
                 resp_url := "https://kapi.kakao.com/v2/api/talk/memo/default/send";
                 text := "not json" |}
              "Expecting value: line 1 column 1 (char 0)")
    as (st' & Hrun & Hl); try (vm_compute; reflexivity).
  - exists st'. split; [exact Hrun |]. rewrite Hl. reflexivity.
Defined.

(** A friend-send batch answered with JSON that is not an object ends
    [send_message] in the [AttributeError] of the [failure_info] lookup,
    not wrapped, and no later batch is sent.  (A self-send has no such
    lookup and returns any JSON body.) *)
Theorem friend_body_not_object (E : Env) (self : KakaoHook)
    (l : list string) (api_params : option (gmap string pyval))
    (st : State) (tok : pyval) (st1 : State) (payload : pyval)
    (k : nat) (rq : request) (docs : list pyval) (r : response) (v : pyval) :
  l <> [] ->
  token E self st = (Return tok, st1) ->
  build_payload E api_params "http://localhost:8080" = Return payload ->
  (friend_request E self tok payload <$> chunks l 5) !! k = Some rq ->
  served E (calls st1)
    (take k (friend_request E self tok payload <$> chunks l 5)) docs ->
  requests_post E
    (calls st1 ++ take k (friend_request E self tok payload <$> chunks l 5))
    rq = inr r ->
  http_error_msg r = None ->
  json_loads E (text r) = inr v ->
  (forall d, v <> PDict d) ->
  exists st',
    send_message E self (Some l) api_params st
    = (Raise (AttributeError
                ("'" +:+ type_name v +:+ "' object has no attribute 'get'")),
       st') /\
    calls st' =
      calls st1 ++
      take (S k) (friend_request E self tok payload <$> chunks l 5).
Proof.
  intros Hne Htok Hb Hk Hs Hr Hm Hj Hv.
  assert (Hn : nonempty_list (Some l) = Some l) by (by destruct l).
  assert (Hp : planned E self tok payload (Some l)
               = friend_request E self tok payload <$> chunks l 5)
    by (unfold planned; by rewrite Hn).
  rewrite <- Hp in Hk, Hs, Hr |- *.
  destruct (planned_stop E self tok payload (Some l) st1 k rq docs
              (AttributeError
                 ("'" +:+ type_name v +:+ "' object has no attribute 'get'"))
              Hk Hs) as (st' & Hrun & Hl & _).
  { rewrite Hn, bool_decide_eq_true_2 by eauto.
    unfold send_outcome. rewrite Hr, Hm, Hj.
    destruct v; try done. by destruct (Hv d). }
  exists st'. by rewrite send_message_run, Htok, Hb, Hrun.
Qed.

Lemma friend_body_not_object_witness :
  exists st',
    send_message (Canned.env "TOKEN" "ARRAY")
      (init (Some "kakao_default") (Some "tk"))
      (Some seven) (Some {["text" := PStr "hi"]}) fresh
    = (Raise (AttributeError "'list' object has no attribute 'get'"), st') /\
    length (calls st') = 1%nat.
Proof.
  destruct (friend_body_not_object (Canned.env "TOKEN" "ARRAY")
              (init (Some "kakao_default") (Some "tk"))
              seven (Some {["text" := PStr "hi"]}) fresh (PStr "tk")
              {| token_cache := Some (PStr "tk"); calls := []; logs := [] |}
              hi_payload 0
              (friend_request (Canned.env "TOKEN" "ARRAY")
                 (init (Some "kakao_default") (Some "tk")) (PStr "tk")
                 hi_payload ["u01"; "u02"; "u03"; "u04"; "u05"])
              []
              (Mock.ok
                 "https://kapi.kakao.com/v1/api/talk/friends/message/default/send"
                 "ARRAY")
              (PList []))
    as (st' & Hrun & Hl);
    try discriminate; try (vm_compute; reflexivity).
  exists st'. split; [exact Hrun |]. rewrite Hl. reflexivity.
Defined.

(** When a send call is answered with a 4xx or 5xx status, the body of that
    response is what [send_message] logs at ERROR level, as its last entry,
    before it raises. *)
Theorem http_error_body_logged (E : Env) (self : KakaoHook)
    (uuids : option (list string)) (api_params : option (gmap string pyval))
    (st : State) (tok : pyval) (st1 : State) (payload : pyval)
    (k : nat) (rq : request) (docs : list pyval) (r : response) :
  token E self st = (Return tok, st1) ->
  build_payload E api_params "http://localhost:8080" = Return payload ->
  planned E self tok payload uuids !! k = Some rq ->
  served E (calls st1) (take k (planned E self tok payload uuids)) docs ->
  requests_post E (calls st1 ++ take k (planned E self tok payload uuids)) rq
    = inr r ->
  (400 <= status_code r < 600)%Z ->
  last (logs (send_message E self uuids api_params st).2)
  = Some (ERROR, "HTTP Error: " +:+ text r).
Proof.
  intros Htok Hb Hk Hs Hr Hstatus.
  destruct (http_error_status r Hstatus) as [m Hm].
  destruct (planned_stop E self tok payload uuids st1 k rq docs
              (HTTPError m r) Hk Hs) as (st' & Hrun & _ & Hlog).
  { unfold send_outcome. by rewrite Hr, Hm. }
  rewrite send_message_run, Htok, Hb, Hrun. simpl. by apply (Hlog m r).
Qed.

Lemma http_error_body_logged_witness :
  last (logs (send_message (Mock.env Mock.down)
                (init (Some "kakao_default") (Some "tk"))
                None (Some {["text" := PStr "hi"]}) fresh).2)
  = Some (ERROR, "HTTP Error: down").
Proof.
  apply (http_error_body_logged (Mock.env Mock.down)
           (init (Some "kakao_default") (Some "tk"))
           None (Some {["text" := PStr "hi"]}) fresh (PStr "tk")
           {| token_cache := Some (PStr "tk"); calls := []; logs := [] |}
           hi_payload 0
           (me_request (Mock.env Mock.down)
              (init (Some "kakao_default") (Some "tk")) (PStr "tk")
              hi_payload)
           []
           (Mock.failed
              "https://kapi.kakao.com/v2/api/talk/memo/default/send"));
    try (vm_compute; reflexivity).
  simpl. lia.
Defined.

(** A second identical self-send on the same hook sends the same request
    again: with a token cached and the payload built, two calls of
    [send_message] in a row add exactly two copies of the self-send request
    and nothing else, whatever either call comes to. *)
Theorem resend_repeats_request (E : Env) (self : KakaoHook)
    (uuids : option (list string)) (api_params : option (gmap string pyval))
    (st : State) (tok payload : pyval) :
  uuids = None \/ uuids = Some [] ->
  token_cache st = Some tok ->
  build_payload E api_params "http://localhost:8080" = Return payload ->
  calls (send_message E self uuids api_params
           (send_message E self uuids api_params st).2).2
  = calls st ++ [me_request E self tok payload; me_request E self tok payload].
Proof.
  intros Hu Hc Hb.
  assert (Hn : nonempty_list uuids = None) by (by destruct Hu; subst).
  assert (Hone : forall st0, token_cache st0 = Some tok ->
            token_cache (send_message E self uuids api_params st0).2
              = Some tok /\
            calls (send_message E self uuids api_params st0).2
              = calls st0 ++ [me_request E self tok payload]).
  { intros st0 Hc0.
    rewrite send_message_run, (token_cached E self st0 tok Hc0), Hb.
    rewrite (dispatch_me_exact E self tok payload uuids st0 Hn).
    by destruct (send_outcome E (calls st0) _ false). }
  destruct (Hone st Hc) as [Hc1 Hl1].
  destruct (Hone _ Hc1) as [_ Hl2].
  rewrite Hl2, Hl1, <- app_assoc. done.
Qed.

Lemma resend_repeats_request_witness :
  length
    (calls (send_message (Mock.env Mock.up)
              (init (Some "kakao_default") None) None
              (Some {["text" := PStr "hi"]})
              (send_message (Mock.env Mock.up)
                 (init (Some "kakao_default") None) None
                 (Some {["text" := PStr "hi"]})
                 {| token_cache := Some (PStr "tok1"); calls := [];
                    logs := [] |}).2).2)
  = 2%nat.
Proof.
  rewrite (resend_repeats_request (Mock.env Mock.up)
             (init (Some "kakao_default") None) None
             (Some {["text" := PStr "hi"]})
             {| token_cache := Some (PStr "tok1"); calls := []; logs := [] |}
             (PStr "tok1") hi_payload);
    [reflexivity | by left | reflexivity | vm_compute; reflexivity].
Defined.

(** ** Partial failures *)

Lemma served_length (E : Env) (hist : list request) (reqs : list request)
    (docs : list pyval) :
  served E hist reqs docs -> length docs = length reqs.
Proof.
  revert hist docs. induction reqs as [|rq reqs IH]; intros hist docs H.
  - by destruct docs.
  - destruct docs as [|v docs]; [done |]. destruct H as (_ & _ & H).
    simpl. f_equal. by apply (IH _ _ H).
Qed.

Lemma send_batches_warnings (E : Env) (self : KakaoHook) (tok payload : pyval)
    (n : nat) (batches : list (nat * list string)) (results : list pyval)
    (st : State) (docs : list pyval) :
  served E (calls st)
    ((fun b : nat * list string => friend_request E self tok payload b.2)
       <$> batches) docs ->
  exists st',
    send_batches E self (send_headers E tok) payload n batches results st
    = (Return (results ++ docs), st') /\
    entries WARNING st' =
      entries WARNING st ++ omap (batch_warning E) (zip batches.*1 docs) /\
    entries ERROR st' = entries ERROR st.
Proof.
  revert results st docs. induction batches as [|[idx chunk] rest IH];
    intros results st docs H.
  - destruct docs; [| done]. exists st. simpl. by rewrite !app_nil_r.
  - destruct docs as [|v docs]; [done |].
    destruct H as ((r & Hr & Hm & Hj) & [d ->] & Hs).
    rewrite send_batches_head. unfold send_outcome. simpl in Hr.
    rewrite Hr, Hm, Hj. simpl.
    match goal with
    | |- context [send_batches _ _ _ _ _ rest _ ?s] =>
        destruct (IH (results ++ [PDict d]) s docs Hs) as (st' & Hrun & Hw & He)
    end.
    exists st'. rewrite Hrun, <- app_assoc. split; [done |].
    rewrite Hw, He. unfold entries. simpl. rewrite !omap_app. simpl.
    rewrite !app_nil_r. split.
    + rewrite <- app_assoc. f_equal.
      unfold batch_warning at 2. simpl.
      destruct (batch_warning E (idx, PDict d)) eqn:Hbw;
        unfold batch_warning in Hbw; simpl in Hbw;
        destruct (truthy (default (PList []) (assoc "failure_info" d)));
        by inversion Hbw.
    + destruct (batch_warning E (idx, PDict d)); simpl;
        by rewrite ?app_nil_r.
Qed.

(** Failures that a batch response reports per recipient do not stop the
    dispatch: with every batch answered well, [send_message] returns all
    responses, logs one WARNING entry for each batch whose response holds a
    truthy [failure_info], in batch order, numbered from 1, and logs
    nothing at ERROR level. *)
Theorem partial_failures_are_warnings (E : Env) (self : KakaoHook)
    (uuids : list string) (api_params : option (gmap string pyval))
    (st : State) (tok : pyval) (st1 : State) (payload : pyval)
    (docs : list pyval) :
  uuids <> [] ->
  token E self st = (Return tok, st1) ->
  build_payload E api_params "http://localhost:8080" = Return payload ->
  served E (calls st1)
    (friend_request E self tok payload <$> chunks uuids 5) docs ->
  exists st',
    send_message E self (Some uuids) api_params st = (Return docs, st') /\
    entries WARNING st' =
      entries WARNING st1 ++ omap (batch_warning E) (enumerate docs) /\
    entries ERROR st' = entries ERROR st1.
Proof.
  intros Hne Htok Hb Hs.
  pose proof (served_length _ _ _ _ Hs) as Hlen. rewrite length_fmap in Hlen.
  rewrite send_message_run, Htok, Hb.
  unfold try_except, dispatch.
  replace (nonempty_list (Some uuids)) with (Some uuids) by (by destruct uuids).
  unfold_goal.
  rewrite <- enumerate_requests in Hs.
  match goal with
  | |- context [send_batches _ _ _ _ _ _ _ ?s] =>
      destruct (send_batches_warnings E self tok payload
                  (length (chunks uuids 5)) (enumerate (chunks uuids 5)) [] s
                  docs Hs) as (st' & Hrun & Hw & He)
  end.
  rewrite Hrun. simpl. eexists. split; [reflexivity |].
  unfold entries in *. simpl in *. rewrite !omap_app. simpl.
  rewrite !omap_app in Hw, He. simpl in Hw, He.
  rewrite !app_nil_r in *. rewrite Hw, He. split; [| done].
  f_equal. f_equal. unfold enumerate.
  rewrite fst_zip by (rewrite length_seq; lia). by rewrite Hlen.
Qed.

Lemma partial_failures_are_warnings_witness :
  exists st',
    send_message (Canned.env "TOKEN" "PARTIAL")
      (init (Some "kakao_default") (Some "tk"))
      (Some seven) (Some {["text" := PStr "hi"]}) fresh
    = (Return [PDict [("failure_info", PList [PStr "u01"])];
               PDict [("failure_info", PList [PStr "u01"])]], st') /\
    entries WARNING st' =
      ["Batch 1 - Some messages failed to send: <object>";
       "Batch 2 - Some messages failed to send: <object>"] /\
    entries ERROR st' = [].
Proof.
  apply (partial_failures_are_warnings (Canned.env "TOKEN" "PARTIAL")
           (init (Some "kakao_default") (Some "tk"))
           seven (Some {["text" := PStr "hi"]}) fresh (PStr "tk")
           {| token_cache := Some (PStr "tk"); calls := []; logs := [] |}
           hi_payload
           [PDict [("failure_info", PList [PStr "u01"])];
            PDict [("failure_info", PList [PStr "u01"])]]).
  - discriminate.
  - vm_compute. reflexivity.
  - vm_compute. reflexivity.
  - simpl. repeat split; eauto; eexists; repeat split; vm_compute; reflexivity.
Defined.

(** ** The operator *)

(** The hook that [execute] builds, and the state its [send_message] starts
    from. *)
Local Abbreviation hook_of op :=
  (init (Some (op_kakao_conn_id op)) (op_token op)).
Local Abbreviation reset st :=
  {| token_cache := None; calls := calls st; logs := logs st |}.

Lemma execute_run (E : Env) (op : KakaoTalkOperator) (st : State) :
  (execute E op st).1 = with_text op /\
  (execute E op st).2.2 =
    (send_message E (hook_of op) (op_receiver_uuids op)
       (Some (op_kakao_kwargs (with_text op))) (reset st)).2 /\
  ((execute E op st).2.1 = Return tt \/
   exists e, (execute E op st).2.1 = Raise e /\
             (send_message E (hook_of op) (op_receiver_uuids op)
                (Some (op_kakao_kwargs (with_text op))) (reset st)).1
             = Raise e).
Proof.
  unfold execute.
  replace (op_kakao_conn_id (with_text op)) with (op_kakao_conn_id op)
    by (unfold with_text; by destruct (op_text op)).
  replace (op_token (with_text op)) with (op_token op)
    by (unfold with_text; by destruct (op_text op)).
  replace (op_receiver_uuids (with_text op)) with (op_receiver_uuids op)
    by (unfold with_text; by destruct (op_text op)).
  destruct (send_message E _ _ _ _) as [[docs|e] st']; simpl;
    repeat split; eauto.
Qed.

(** Every spelled-out send call holds the JSON text of the payload as its
    [template_object]. *)
Lemma wire_calls_template (E : Env) (self : KakaoHook) (tok payload : pyval)
    (uuids : option (list string)) :
  Forall (fun rq => assoc "template_object" (req_data rq)
                    = Some (PStr (json_dumps E payload)))
    (wire_calls E self tok payload uuids).
Proof.
  unfold wire_calls. destruct uuids as [[|x l]|].
  - by repeat constructor.
  - apply Forall_fmap, Forall_true. by intros chunk.
  - by repeat constructor.
Qed.

(** The operator's [text] is the message: when [text] is given (the empty
    string included) and [kakao_kwargs] holds no ['template_object'], the
    send calls that [execute] makes are spelled-out calls for the text
    object built from the operator's [text], at least one and in order, so
    each of them holds the JSON text of that object as its
    [template_object], whatever ['text'] the [kakao_kwargs] held; the URLs
    of the object are those of [kakao_kwargs]; and [text] is left behind in
    the operator's [kakao_kwargs]. *)
Theorem operator_text_is_the_message (E : Env) (op : KakaoTalkOperator)
    (st : State) (t : string) (tok : pyval) (st1 : State) :
  op_text op = Some t ->
  op_kakao_kwargs op !! "template_object" = None ->
  token E (hook_of op) (reset st) = (Return tok, st1) ->
  let w := default (PStr "http://localhost:8080")
             (op_kakao_kwargs op !! "web_url") in
  let m := default w (op_kakao_kwargs op !! "mobile_web_url") in
  let payload :=
    PDict [("object_type", PStr "text");
           ("text", PStr t);
           ("link", PDict [("web_url", w); ("mobile_web_url", m)])] in
  (exists k,
     (0 < k <= length (wire_calls E (hook_of op) tok payload
                         (op_receiver_uuids op)))%nat /\
     calls (execute E op st).2.2 =
       calls st1 ++
       take k (wire_calls E (hook_of op) tok payload (op_receiver_uuids op)) /\
     Forall (fun rq => assoc "template_object" (req_data rq)
                       = Some (PStr (json_dumps E payload)))
       (take k (wire_calls E (hook_of op) tok payload
                  (op_receiver_uuids op)))) /\
  op_kakao_kwargs (execute E op st).1 = <["text" := PStr t]> (op_kakao_kwargs op).
Proof.
  intros Ht Htpl Htok w m payload.
  destruct (execute_run E op st) as (Hop & Hst & _).
  rewrite Hop, Hst. unfold with_text. rewrite Ht. simpl. split; [| done].
  assert (Hb : build_payload E (Some (<["text" := PStr t]> (op_kakao_kwargs op)))
                 "http://localhost:8080" = Return payload).
  { unfold build_payload, py_in, params_get.
    rewrite (lookup_insert_ne _ "text" "template_object") by done.
    rewrite (lookup_insert_ne _ "text" "web_url") by done.
    rewrite (lookup_insert_ne _ "text" "mobile_web_url") by done.
    rewrite Htpl, lookup_insert_eq.
    rewrite bool_decide_eq_false_2 by (intros [? ?]; done).
    rewrite bool_decide_eq_true_2 by eauto. done. }
  destruct (send_message_wire E (hook_of op) (op_receiver_uuids op) _
              (reset st) tok st1 payload _ _ Htok Hb (surjective_pairing _))
    as (k & Hk & Hl & _).
  exists k. split; [done |]. split; [done |].
  apply Forall_take.
  exact (wire_calls_template E (hook_of op) tok payload (op_receiver_uuids op)).
Qed.

Lemma operator_text_is_the_message_witness :
  (fun rq => assoc "template_object" (req_data rq)) <$>
    calls
      (execute (Mock.env Mock.up)
         {| op_token := Some "tk"; op_receiver_uuids := None;
            op_kakao_kwargs := {["text" := PStr "from kwargs"]};
            op_text := Some "hi"; op_kakao_conn_id := "kakao_default" |}
         fresh).2.2
  = [Some (PStr (json_dumps (Mock.env Mock.up) hi_payload))].
Proof.
  destruct (operator_text_is_the_message (Mock.env Mock.up)
              {| op_token := Some "tk"; op_receiver_uuids := None;
                 op_kakao_kwargs := {["text" := PStr "from kwargs"]};
                 op_text := Some "hi"; op_kakao_conn_id := "kakao_default" |}
              fresh "hi" (PStr "tk")
              {| token_cache := Some (PStr "tk"); calls := []; logs := [] |})
    as [(k & [Hpos Hle] & Hcalls & _) _];
    [reflexivity | reflexivity | vm_compute; reflexivity |].
  rewrite Hcalls. simpl in Hle.
  destruct k as [|[|k]]; [lia | reflexivity | lia].
Defined.

(** A ['template_object'] in [kakao_kwargs] overrides the operator's
    [text]: when it is not a string, the send calls that [execute] makes
    are spelled-out calls for that value, at least one and in order, so
    each of them holds the JSON text of that value as its
    [template_object], whether or not [text] is given. *)
Theorem operator_template_overrides_text (E : Env) (op : KakaoTalkOperator)
    (st : State) (v tok : pyval) (st1 : State) :
  op_kakao_kwargs op !! "template_object" = Some v ->
  (forall s, v <> PStr s) ->
  token E (hook_of op) (reset st) = (Return tok, st1) ->
  exists k,
    (0 < k <= length (wire_calls E (hook_of op) tok v
                        (op_receiver_uuids op)))%nat /\
    calls (execute E op st).2.2 =
      calls st1 ++
      take k (wire_calls E (hook_of op) tok v (op_receiver_uuids op)) /\
    Forall (fun rq => assoc "template_object" (req_data rq)
                      = Some (PStr (json_dumps E v)))
      (take k (wire_calls E (hook_of op) tok v (op_receiver_uuids op))).
Proof.
  intros Htpl Hv Htok.
  destruct (execute_run E op st) as (_ & Hst & _). rewrite Hst.
  assert (Hk : op_kakao_kwargs (with_text op) !! "template_object" = Some v).
  { unfold with_text. destruct (op_text op); simpl; [| done].
    by rewrite lookup_insert_ne. }
  destruct (payload_of_template E _ v Hk) as [_ Hb].
  destruct (send_message_wire E (hook_of op) (op_receiver_uuids op) _
              (reset st) tok st1 v _ _ Htok (Hb Hv) (surjective_pairing _))
    as (k & Hpos & Hl & _).
  exists k. split; [done |]. split; [done |].
  apply Forall_take, wire_calls_template.
Qed.

Lemma operator_template_overrides_text_witness :
  (fun rq => assoc "template_object" (req_data rq)) <$>
    calls
      (execute (Mock.env Mock.up)
         {| op_token := Some "tk"; op_receiver_uuids := None;
            op_kakao_kwargs :=
              {["template_object" := PDict [("object_type", PStr "feed")]]};
            op_text := Some "hi"; op_kakao_conn_id := "kakao_default" |}
         fresh).2.2
  = [Some (PStr (json_dumps (Mock.env Mock.up)
                   (PDict [("object_type", PStr "feed")])))].
Proof.
  destruct (operator_template_overrides_text (Mock.env Mock.up)
              {| op_token := Some "tk"; op_receiver_uuids := None;
                 op_kakao_kwargs :=
                   {["template_object" :=
                       PDict [("object_type", PStr "feed")]]};
                 op_text := Some "hi"; op_kakao_conn_id := "kakao_default" |}
              fresh (PDict [("object_type", PStr "feed")]) (PStr "tk")
              {| token_cache := Some (PStr "tk"); calls := []; logs := [] |})
    as (k & [Hpos Hle] & Hcalls & _);
    [reflexivity | discriminate | vm_compute; reflexivity |].
  rewrite Hcalls. simpl in Hle.
  destruct k as [|[|k]]; [lia | reflexivity | lia].
Defined.

(** An operator without a message fails late: with no [text] and neither
    ['text'] nor ['template_object'] in [kakao_kwargs] (the operator's
    defaults), [execute] still reads the token, and then raises the
    validation error without any send call. *)
Theorem operator_without_message (E : Env) (op : KakaoTalkOperator)
    (st : State) (tok : pyval) (st1 : State) :
  op_text op = None ->
  op_kakao_kwargs op !! "text" = None ->
  op_kakao_kwargs op !! "template_object" = None ->
  token E (hook_of op) (reset st) = (Return tok, st1) ->
  (execute E op st).2 =
  (Raise (AirflowException
            "message_args must contain 'text' or 'template_object'."), st1).
Proof.
  intros Ht Htext Htpl Htok. unfold execute, with_text. rewrite Ht.
  rewrite send_message_run, Htok. unfold build_payload, py_in.
  rewrite Htpl, Htext.
  by rewrite !bool_decide_eq_false_2 by (intros [? ?]; done).
Qed.

Lemma operator_without_message_witness :
  exists op,
    operator_init (Some "kakao_default") None None None None = Return op /\
    (execute (Mock.env Mock.up) op fresh).2 =
    (Raise (AirflowException
              "message_args must contain 'text' or 'template_object'."),
     {| token_cache := Some (PStr "tok1");
        calls := [token_request];
        logs := [(INFO, "Refreshing Kakao Access Token...")] |}).
Proof.
  eexists. split; [reflexivity |].
  apply (operator_without_message (Mock.env Mock.up) _ fresh (PStr "tok1"));
    [reflexivity | reflexivity | reflexivity | vm_compute; reflexivity].
Defined.

(** The operator does not share a token between runs: each [execute] builds
    a new hook, so without a token override every [execute] that returns
    has issued exactly one token-refresh call of its own, whatever token an
    earlier run had obtained. *)
Theorem operator_refreshes_every_run (E : Env) (op : KakaoTalkOperator)
    (st : State) :
  nonempty (op_token op) = None ->
  (execute E op st).2.1 = Return tt ->
  exists rq,
    req_url rq = token_url (hook_of op) /\
    token_calls (hook_of op) (execute E op st).2.2
    = token_calls (hook_of op) st ++ [rq].
Proof.
  intros Ho Hret.
  destruct (execute_run E op st) as (_ & Hst & Hres). rewrite Hst.
  destruct Hres as [_ | (e & He & _)]; [| congruence].
  unfold execute in Hret.
  replace (op_kakao_conn_id (with_text op)) with (op_kakao_conn_id op) in Hret
    by (unfold with_text; by destruct (op_text op)).
  replace (op_token (with_text op)) with (op_token op) in Hret
    by (unfold with_text; by destruct (op_text op)).
  replace (op_receiver_uuids (with_text op)) with (op_receiver_uuids op)
    in Hret by (unfold with_text; by destruct (op_text op)).
  rewrite send_message_run in Hret |- *.
  rewrite (token_uncached E (hook_of op) (reset st) eq_refl) in Hret |- *.
  destruct (token_getter E (hook_of op) (reset st)) as [r0 st0] eqn:Hg.
  destruct (token_getter_no_override E (hook_of op) (reset st) r0 st0 Ho Hg)
    as [_ Hr0].
  destruct r0 as [tok|e]; [| done].
  destruct Hr0 as (rq & Hurl & Hl0). simpl in Hl0.
  destruct (build_payload E _ _) as [payload|e]; [| done].
  match goal with
  | |- context [try_except ?b ?h ?s] =>
      destruct (try_except b h s) as [r st'] eqn:Hrun
  end.
  apply dispatch_inv in Hrun. destruct Hrun as (_ & (l & Hl & HF) & _).
  exists rq. split; [done |]. unfold token_calls. cbn [snd].
  rewrite Hl. cbn [calls]. rewrite ?Hl0.
  rewrite !List.filter_app, (filter_sends _ l); try done.
  cbn [List.filter]. rewrite Hurl, String.eqb_refl. by rewrite app_nil_r.
Qed.

Lemma operator_refreshes_every_run_witness :
  exists rq,
    req_url rq = "https://kauth.kakao.com/oauth/token" /\
    token_calls (init (Some "kakao_default") None)
      (execute (Mock.env Mock.up)
         {| op_token := None; op_receiver_uuids := None;
            op_kakao_kwargs := ∅; op_text := Some "hi";
            op_kakao_conn_id := "kakao_default" |}
         {| token_cache := Some (PStr "tok1"); calls := [token_request];
            logs := [] |}).2.2
    = [token_request] ++ [rq].
Proof.
  apply (operator_refreshes_every_run (Mock.env Mock.up)
           {| op_token := None; op_receiver_uuids := None;
              op_kakao_kwargs := ∅; op_text := Some "hi";
              op_kakao_conn_id := "kakao_default" |}
           {| token_cache := Some (PStr "tok1"); calls := [token_request];
              logs := [] |});
    [reflexivity | vm_compute; reflexivity].
Defined.
